(** * ETSIA ML API: the application bootstrap [app/main.py]

    A shallow embedding of the FastAPI entry point: the CORS
    configuration, the startup hook that fills the model registry, the
    two operational endpoints ([GET /] and [GET /health]) and the global
    exception handler.

    Python values are embedded as follows.
    - [str] is [string] (a byte string: non-ASCII literals are their
      UTF-8 bytes); [int] is [Z]; [bool] is [bool].
    - A [dict] is an insertion-ordered association list: Python dicts
      keep insertion order and [list(d.keys())] exposes it in the body of
      [GET /health].
    - Code that may raise lives in the monad [M]: a handler maps the
      process state to an outcome ([Return] or [Raise]) and the new
      process state.  Unlike a state monad stacked on an error monad, the
      state written before a [raise] survives it, as in Python. *)

From Stdlib Require Import String Ascii List ZArith NArith Lia Bool.
From Stdlib Require Import DecimalString.
Import ListNotations.
Local Open Scope string_scope.
Local Open Scope Z_scope.

(** ** Python exceptions and outcomes *)

(** An instance of (a subclass of) Python's [Exception]: what
    [except Exception] and [@app.exception_handler(Exception)] catch. *)
Record exn : Type := Exception {
  exn_class : string;
  exn_message : string
}.

(** [str(e)], also what an f-string prints for [{e}]. *)
Definition str_exn (e : exn) : string := exn_message e.

Inductive result (A : Type) : Type :=
| Return (a : A)
| Raise (e : exn).
Arguments Return {A} a.
Arguments Raise {A} e.

(** ** Strings *)

(** [sep * n] for a one-line separator such as ["=" * 70]. *)
Fixpoint str_repeat (s : string) (n : nat) : string :=
  match n with
  | O => ""
  | S n' => s ++ str_repeat s n'
  end.

(** [str(n)] for a non-negative integer. *)
Definition str_nat (n : nat) : string :=
  NilZero.string_of_uint (Nat.to_uint n).

Definition comma : ascii := ","%char.

(** [s.split(",")]: cut at every comma; the fields keep every other
    character, and a string without a comma (the empty one too) is a
    single field. *)
Fixpoint str_split (sep : ascii) (s : string) : list string :=
  match s with
  | EmptyString => [EmptyString]
  | String c rest =>
      if Ascii.eqb c sep then EmptyString :: str_split sep rest
      else match str_split sep rest with
           | [] => [String c EmptyString]
           | field :: fields => String c field :: fields
           end
  end.

(** [sep.join(fields)]. *)
Fixpoint str_join (sep : ascii) (fields : list string) : string :=
  match fields with
  | [] => ""
  | [f] => f
  | f :: rest => f ++ String sep (str_join sep rest)
  end.

Fixpoint str_count (c : ascii) (s : string) : nat :=
  match s with
  | EmptyString => O
  | String c' rest => ((if Ascii.eqb c' c then 1 else 0) + str_count c rest)%nat
  end.

(** ** Dictionaries *)

Definition dict (V : Type) : Type := list (string * V).

Fixpoint dict_get {V : Type} (k : string) (d : dict V) : option V :=
  match d with
  | [] => None
  | (k', v) :: rest => if String.eqb k k' then Some v else dict_get k rest
  end.

(** [d[k] = v]: an existing key keeps its position, a new key goes last. *)
Fixpoint dict_set {V : Type} (k : string) (v : V) (d : dict V) : dict V :=
  match d with
  | [] => [(k, v)]
  | (k', v') :: rest =>
      if String.eqb k k' then (k, v) :: rest else (k', v') :: dict_set k v rest
  end.

Definition dict_keys {V : Type} (d : dict V) : list string := map fst d.

Definition dict_values {V : Type} (d : dict V) : list V := map snd d.

Definition dict_map {V W : Type} (f : V -> W) (d : dict V) : dict W :=
  map (fun kv => (fst kv, f (snd kv))) d.

(** ** JSON values *)

#[warnings="-register-all"]
Inductive json : Type :=
| JNull
| JBool (b : bool)
| JInt (n : Z)
| JStr (s : string)
| JList (items : list json)
| JObj (fields : list (string * json)).

Definition json_keys (j : json) : list string :=
  match j with
  | JObj fields => map fst fields
  | _ => []
  end.

Definition json_get (k : string) (j : json) : option json :=
  match j with
  | JObj fields => dict_get k fields
  | _ => None
  end.

(** ** [datetime] *)

(** A naive [datetime] (no [tzinfo]), as [datetime.utcnow()] returns. *)
Record datetime : Type := mk_datetime {
  year : Z;
  month : Z;
  day : Z;
  hour : Z;
  minute : Z;
  second : Z;
  microsecond : Z
}.

Definition is_leap (y : Z) : bool :=
  (y mod 4 =? 0) && (negb (y mod 100 =? 0) || (y mod 400 =? 0)).

Definition days_in_month (y m : Z) : Z :=
  if m =? 2 then (if is_leap y then 29 else 28)
  else if (m =? 4) || (m =? 6) || (m =? 9) || (m =? 11) then 30
  else 31.

(** The invariant of every [datetime] object ([MINYEAR = 1],
    [MAXYEAR = 9999]). *)
Definition valid_datetime (d : datetime) : bool :=
  (1 <=? year d) && (year d <=? 9999) &&
  (1 <=? month d) && (month d <=? 12) &&
  (1 <=? day d) && (day d <=? days_in_month (year d) (month d)) &&
  (0 <=? hour d) && (hour d <? 24) &&
  (0 <=? minute d) && (minute d <? 60) &&
  (0 <=? second d) && (second d <? 60) &&
  (0 <=? microsecond d) && (microsecond d <? 1000000).

Definition digit_char (d : Z) : ascii := ascii_of_N (48 + Z.to_N d).

(** The [width] low decimal digits of [n], most significant first, in
    front of [acc]. *)
Fixpoint fixed_digits (width : nat) (n : Z) (acc : string) : string :=
  match width with
  | O => acc
  | S w => fixed_digits w (n / 10) (String (digit_char (n mod 10)) acc)
  end.

(** ["%0<width>d" % n] for [0 <= n]: zero-padded to [width] digits, and
    the plain decimal form when [n] needs more digits than that. *)
Definition fmt_0d (width : nat) (n : Z) : string :=
  if n <? 10 ^ Z.of_nat width then fixed_digits width n ""
  else NilZero.string_of_uint (N.to_uint (Z.to_N n)).

(** [d.isoformat()] of a naive datetime: [YYYY-MM-DDTHH:MM:SS], followed
    by [.ffffff] when the microsecond is not zero; no offset suffix. *)
Definition isoformat (d : datetime) : string :=
  fmt_0d 4 (year d) ++ "-" ++ fmt_0d 2 (month d) ++ "-" ++ fmt_0d 2 (day d)
  ++ "T" ++ fmt_0d 2 (hour d) ++ ":" ++ fmt_0d 2 (minute d) ++ ":"
  ++ fmt_0d 2 (second d)
  ++ (if microsecond d =? 0 then "" else "." ++ fmt_0d 6 (microsecond d)).

(** *** A reader of ISO-8601 calendar date-times

    [iso8601_read] accepts the extended format
    [YYYY-MM-DDThh:mm:ss] with an optional fraction of six digits, checks
    the ranges of the calendar, and returns the instant it denotes. *)

Definition digit_val (c : ascii) : option Z :=
  let n := N_of_ascii c in
  if ((48 <=? n) && (n <=? 57))%N then Some (Z.of_N n - 48) else None.

Fixpoint read_digits (width : nat) (s : string) (acc : Z) : option (Z * string) :=
  match width with
  | O => Some (acc, s)
  | S w =>
      match s with
      | EmptyString => None
      | String c rest =>
          match digit_val c with
          | Some v => read_digits w rest (10 * acc + v)
          | None => None
          end
      end
  end.

Definition read_char (c : ascii) (s : string) : option string :=
  match s with
  | EmptyString => None
  | String c' rest => if Ascii.eqb c c' then Some rest else None
  end.

Definition read_fraction (s : string) : option Z :=
  match s with
  | EmptyString => Some 0
  | String c rest =>
      if Ascii.eqb c "."%char then
        match read_digits 6 rest 0 with
        | Some (us, EmptyString) => Some us
        | _ => None
        end
      else None
  end.

Definition obind {A B : Type} (o : option A) (k : A -> option B) : option B :=
  match o with
  | Some a => k a
  | None => None
  end.

Definition iso8601_read (s : string) : option datetime :=
  obind (read_digits 4 s 0) (fun '(y, s) =>
  obind (read_char "-"%char s) (fun s =>
  obind (read_digits 2 s 0) (fun '(mo, s) =>
  obind (read_char "-"%char s) (fun s =>
  obind (read_digits 2 s 0) (fun '(d, s) =>
  obind (read_char "T"%char s) (fun s =>
  obind (read_digits 2 s 0) (fun '(h, s) =>
  obind (read_char ":"%char s) (fun s =>
  obind (read_digits 2 s 0) (fun '(mi, s) =>
  obind (read_char ":"%char s) (fun s =>
  obind (read_digits 2 s 0) (fun '(sec, s) =>
  obind (read_fraction s) (fun us =>
  let dt := mk_datetime y mo d h mi sec us in
  if valid_datetime dt then Some dt else None)))))))))))).

(** ** Configuration

    [app.config.settings] is loaded once at process start; the bootstrap
    only reads these five strings. *)
Record Settings : Type := {
  API_TITLE : string;
  API_VERSION : string;
  API_DESCRIPTION : string;
  CORS_ORIGINS : string;
  LOG_LEVEL : string
}.

(** ** The model registry *)

(** What a classifier's own [health_check()] reports. *)
Inductive HealthStatus : Type :=
| Reported (status : json)
| Unhealthy (detail : string).

(** The classifier capability: identity and health check (prediction is
    not used by the bootstrap).  [health_check] is the outcome of calling
    the model's own health check, which may raise. *)
Record Classifier : Type := {
  model_name : string;
  model_version : string;
  model_author : string;
  health_check : result json
}.

Record Descriptor : Type := {
  name : string;
  version : string;
  author : string;
  is_default : bool;
  capability : Classifier
}.

(** The summary of one model in [list_models()]. *)
Record ModelInfo : Type := {
  info_version : string;
  info_author : string;
  info_is_default : bool
}.

Definition Registry : Type := dict Descriptor.

(** The two behaviours the specification leaves open for a name that is
    already registered. *)
Inductive DuplicatePolicy : Type :=
| RejectDuplicate
| OverwriteDuplicate.

Definition describe (c : Classifier) (default : bool) : Descriptor :=
  {| name := model_name c;
     version := model_version c;
     author := model_author c;
     is_default := default;
     capability := c |}.

Definition clear_default (d : Descriptor) : Descriptor :=
  {| name := name d;
     version := version d;
     author := author d;
     is_default := false;
     capability := capability d |}.

Definition duplicate_error (n : string) : exn :=
  Exception "ValueError" ("model already registered: " ++ n).

(** Modelled from the spec: [app.core.model_registry] is not part of the
    sources.  [register(descriptor, set_as_default)] "inserts a Descriptor
    keyed by its name.  If [set_as_default] is true, clears any prior
    default flag and marks this one default.  Fails (or silently
    overwrites) on duplicate names."  The registry owns the default flag:
    the caller hands over a classifier and the flag is what
    [set_as_default] says. *)
Definition register (policy : DuplicatePolicy) (c : Classifier)
    (set_as_default : bool) (r : Registry) : result Registry :=
  match dict_get (model_name c) r, policy with
  | Some _, RejectDuplicate => Raise (duplicate_error (model_name c))
  | _, _ =>
      let cleared := if set_as_default then dict_map clear_default r else r in
      Return (dict_set (model_name c) (describe c set_as_default) cleared)
  end.

Definition summary (d : Descriptor) : ModelInfo :=
  {| info_version := version d;
     info_author := author d;
     info_is_default := is_default d |}.

(** Modelled from the spec: [list_models()] "returns a read-only
    snapshot: for each registered Descriptor, its version, author, and
    default flag.  Never mutates." *)
Definition list_models (r : Registry) : dict ModelInfo :=
  dict_map summary r.

(** One entry of the aggregate: the model's own report, or an unhealthy
    status carrying the text of the exception its check raised. *)
Definition check_one (d : Descriptor) : HealthStatus :=
  match health_check (capability d) with
  | Return status => Reported status
  | Raise e => Unhealthy (str_exn e)
  end.

(** Modelled from the spec: [health_check_all()] "invokes each registered
    classifier's own health-check operation and collects results keyed by
    model name; a failing individual check must not abort the aggregate
    (isolate per-entry failures, report as an unhealthy status for that
    entry rather than propagating)." *)
Definition health_check_all (r : Registry) : dict HealthStatus :=
  fold_left (fun results kd => dict_set (fst kd) (check_one (snd kd)) results)
            r [].

Definition count_defaults (r : Registry) : nat :=
  length (filter is_default (dict_values r)).

(** The registry after a sequence of [register] calls; a call that raises
    leaves the registry as it was. *)
Definition register_or_keep (policy : DuplicatePolicy) (r : Registry)
    (call : Classifier * bool) : Registry :=
  match register policy (fst call) (snd call) r with
  | Return r' => r'
  | Raise _ => r
  end.

Definition register_all (policy : DuplicatePolicy)
    (calls : list (Classifier * bool)) (r : Registry) : Registry :=
  fold_left (register_or_keep policy) calls r.

(** What every registry built by registrations satisfies. *)
Definition registry_ok (r : Registry) : Prop :=
  NoDup (dict_keys r) /\ (count_defaults r <= 1)%nat.

(** ** The process state and the handler monad *)

Inductive LogLevel : Type := INFO | WARNING | ERROR.

Record LogRecord : Type := {
  level : LogLevel;
  message : string
}.

(** The calls made on the registry object, in order (ghost state: it
    records which registry methods a handler invokes). *)
Inductive RegistryCall : Type :=
| CallRegister (model : string) (set_as_default : bool)
| CallListModels
| CallHealthCheckAll.

Record World : Type := {
  registry : Registry;          (* app.core.model_registry.registry *)
  log : list LogRecord;         (* what the module logger has emitted *)
  calls : list RegistryCall;
  utcnow : datetime             (* the UTC wall clock *)
}.

Definition M (A : Type) : Type := World -> result A * World.

Definition ret {A : Type} (a : A) : M A := fun w => (Return a, w).

Definition raise {A : Type} (e : exn) : M A := fun w => (Raise e, w).

Definition bind {A B : Type} (m : M A) (k : A -> M B) : M B :=
  fun w =>
    match m w with
    | (Return a, w') => k a w'
    | (Raise e, w') => (Raise e, w')
    end.

(** [try: body / except Exception as e: handler]. *)
Definition try_except {A : Type} (body : M A) (handler : exn -> M A) : M A :=
  fun w =>
    match body w with
    | (Return a, w') => (Return a, w')
    | (Raise e, w') => handler e w'
    end.

Declare Scope py_scope.
Delimit Scope py_scope with py.
Notation "x <- m ;; k" := (bind m (fun x => k))
  (at level 100, m at next level, right associativity) : py_scope.
Notation "m ;; k" := (bind m (fun _ => k))
  (at level 100, right associativity) : py_scope.
Local Open Scope py_scope.

Fixpoint for_each {A : Type} (items : list A) (body : A -> M unit) : M unit :=
  match items with
  | [] => ret tt
  | x :: rest => body x ;; for_each rest body
  end.

Definition emit (lvl : LogLevel) (msg : string) : M unit :=
  fun w =>
    (Return tt,
     {| registry := registry w;
        log := log w ++ [{| level := lvl; message := msg |}];
        calls := calls w;
        utcnow := utcnow w |}).

Definition logger_info : string -> M unit := emit INFO.
Definition logger_warning : string -> M unit := emit WARNING.
Definition logger_error : string -> M unit := emit ERROR.

Definition datetime_utcnow : M datetime := fun w => (Return (utcnow w), w).

Definition record_call (c : RegistryCall) (w : World) : World :=
  {| registry := registry w;
     log := log w;
     calls := calls w ++ [c];
     utcnow := utcnow w |}.

(** [registry.register(model, set_as_default=...)]. *)
Definition registry_register (policy : DuplicatePolicy) (c : Classifier)
    (set_as_default : bool) : M unit :=
  fun w =>
    let w1 := record_call (CallRegister (model_name c) set_as_default) w in
    match register policy c set_as_default (registry w1) with
    | Return r' =>
        (Return tt,
         {| registry := r'; log := log w1; calls := calls w1;
            utcnow := utcnow w1 |})
    | Raise e => (Raise e, w1)
    end.

(** [registry.list_models()]. *)
Definition registry_list_models : M (dict ModelInfo) :=
  fun w => (Return (list_models (registry w)), record_call CallListModels w).

(** [registry.health_check_all()]. *)
Definition registry_health_check_all : M (dict HealthStatus) :=
  fun w =>
    (Return (health_check_all (registry w)), record_call CallHealthCheckAll w).

(** ** [app/main.py] *)

Record CORSMiddleware : Type := {
  allow_origins : list string;
  allow_credentials : bool;
  allow_methods : list string;
  allow_headers : list string
}.

Record FastAPI : Type := {
  title : string;
  app_version : string;
  description : string;
  docs_url : string;
  redoc_url : string;
  user_middleware : list CORSMiddleware
}.

(** [app = FastAPI(...)] followed by [app.add_middleware(CORSMiddleware, ...)]. *)
Definition app (settings : Settings) : FastAPI :=
  {| title := API_TITLE settings;
     app_version := API_VERSION settings;
     description := API_DESCRIPTION settings ++ " - Architecture Multi-Modèles";
     docs_url := "/docs";
     redoc_url := "/redoc";
     user_middleware :=
       [ {| allow_origins := str_split comma (CORS_ORIGINS settings);
            allow_credentials := true;
            allow_methods := ["*"];
            allow_headers := ["*"] |} ] |}.

(** The origins the CORS middleware of the application allows. *)
Definition cors_allow_origins (settings : Settings) : list string :=
  concat (map allow_origins (user_middleware (app settings))).

Definition rule (c : string) : string := str_repeat c 70.

Definition newline : ascii := "010"%char.

Definition summary_line (entry : string * ModelInfo) : string :=
  let default_marker :=
    if info_is_default (snd entry) then " [DÉFAUT]" else "" in
  "  • " ++ fst entry ++ " v" ++ info_version (snd entry)
  ++ " by " ++ info_author (snd entry) ++ default_marker.

(** [startup_event()].  [YansnetLLMModel] is the outcome of importing
    [app.services.yansnet_llm] and calling the model's constructor. *)
Definition startup_event (settings : Settings) (policy : DuplicatePolicy)
    (YansnetLLMModel : result Classifier) : M unit :=
  logger_info (rule "=") ;;
  logger_info (API_TITLE settings ++ " v" ++ API_VERSION settings) ;;
  logger_info "Architecture Multi-Modèles" ;;
  logger_info (rule "=") ;;
  logger_info (String newline "📦 Enregistrement des modèles...") ;;
  logger_info (rule "-") ;;
  try_except
    (model <- (fun w => (YansnetLLMModel, w)) ;;
     registry_register policy model true)
    (fun e =>
       logger_error
         ("✗ Erreur lors de l'enregistrement du modèle YANSNET LLM: "
          ++ str_exn e) ;;
       logger_error "  Vérifiez que .env est configuré avec les clés API") ;;
  logger_info (rule "-") ;;
  models <- registry_list_models ;;
  (match models with
   | _ :: _ =>
       logger_info ("✓ " ++ str_nat (length models) ++ " modèle(s) enregistré(s):") ;;
       for_each models (fun entry => logger_info (summary_line entry))
   | [] => logger_warning "⚠️  Aucun modèle enregistré!"
   end) ;;
  logger_info (rule "=") ;;
  logger_info "✓ API démarrée avec succès!" ;;
  logger_info "📚 Documentation: http://localhost:8000/docs" ;;
  logger_info "📋 Modèles disponibles: http://localhost:8000/api/v1/models" ;;
  logger_info (rule "=").


(** [GET /]. *)
Definition root (settings : Settings) : M json :=
  ret (JObj [ ("message", JStr "API de Détection de Dépression");
              ("version", JStr (API_VERSION settings));
              ("docs", JStr "/docs");
              ("health", JStr "/health") ]).

Definition health_json (h : HealthStatus) : json :=
  match h with
  | Reported status => status
  | Unhealthy detail =>
      JObj [ ("status", JStr "unhealthy"); ("error", JStr detail) ]
  end.

(** [GET /health]. *)
Definition health (settings : Settings) : M json :=
  models_health <- registry_health_check_all ;;
  models_list <- registry_list_models ;;
  now <- datetime_utcnow ;;
  ret (JObj [ ("status", JStr "healthy");
              ("version", JStr (API_VERSION settings));
              ("timestamp", JStr (isoformat now));
              ("models",
               JObj [ ("total", JInt (Z.of_nat (length models_list)));
                      ("available", JList (map JStr (dict_keys models_list)));
                      ("health", JObj (dict_map health_json models_health)) ]) ]).

Record Request : Type := {
  method : string;
  path : string
}.

Record JSONResponse : Type := {
  status_code : Z;
  content : json
}.

(** [global_exception_handler(request, exc)]. *)
Definition global_exception_handler (request : Request) (exc : exn)
    : M JSONResponse :=
  logger_error ("Erreur non gérée: " ++ str_exn exc) ;;
  now <- datetime_utcnow ;;
  ret {| status_code := 500;
         content := JObj [ ("error", JStr "Erreur interne du serveur");
                           ("detail", JStr (str_exn exc));
                           ("timestamp", JStr (isoformat now)) ] |}.

(** How the application answers a request routed to [handler]: the body
    the handler returns, with status 200, or the answer of the handler
    registered with [@app.exception_handler(Exception)] when the route
    handler raises. *)
Definition serve (handler : M json) (request : Request) : M JSONResponse :=
  try_except
    (body <- handler ;; ret {| status_code := 200; content := body |})
    (global_exception_handler request).

(** The two routes [main.py] declares itself. *)
Inductive Endpoint : Type := GetRoot | GetHealth.

Definition endpoint_handler (settings : Settings) (ep : Endpoint) : M json :=
  match ep with
  | GetRoot => root settings
  | GetHealth => health settings
  end.

Definition endpoint_request (ep : Endpoint) : Request :=
  match ep with
  | GetRoot => {| method := "GET"; path := "/" |}
  | GetHealth => {| method := "GET"; path := "/health" |}
  end.

(** A request arrives at some instant of the UTC clock. *)
Definition at_time (t : datetime) (w : World) : World :=
  {| registry := registry w; log := log w; calls := calls w; utcnow := t |}.

(** The process state after serving a sequence of requests, each arriving
    at its own instant. *)
Fixpoint serve_all (settings : Settings) (requests : list (Endpoint * datetime))
    (w : World) : World :=
  match requests with
  | [] => w
  | (ep, t) :: rest =>
      serve_all settings rest
        (snd (serve (endpoint_handler settings ep) (endpoint_request ep)
                    (at_time t w)))
  end.

Definition is_register_call (c : RegistryCall) : bool :=
  match c with
  | CallRegister _ _ => true
  | _ => false
  end.

(** The process as it is when the startup hook runs: nothing registered,
    nothing logged. *)
Definition boot (t : datetime) : World :=
  {| registry := []; log := []; calls := []; utcnow := t |}.

(** The two log records the startup hook emits when things go wrong. *)
Definition registration_error (e : exn) : LogRecord :=
  {| level := ERROR;
     message := "✗ Erreur lors de l'enregistrement du modèle YANSNET LLM: "
                ++ str_exn e |}.

Definition no_model_warning : LogRecord :=
  {| level := WARNING; message := "⚠️  Aucun modèle enregistré!" |}.

(** ** Sample values *)

Definition sample_settings : Settings :=
  {| API_TITLE := "ETSIA ML API";
     API_VERSION := "1.0.0";
     API_DESCRIPTION := "API de détection de dépression";
     CORS_ORIGINS := "http://localhost:3000, http://localhost:8080";
     LOG_LEVEL := "INFO" |}.

Definition sample_instant : datetime := mk_datetime 2024 2 29 9 5 0 4200.

Definition sample_exn : exn := Exception "ValueError" "boom".

(** A route whose handler raises. *)
Definition failing_route : M json := raise sample_exn.

(** ** The startup log *)

(** What a handler has added to the log between two states. *)
Definition emitted (before after : World) : list LogRecord :=
  skipn (length (log before)) (log after).

Definition level_eqb (a b : LogLevel) : bool :=
  match a, b with
  | INFO, INFO | WARNING, WARNING | ERROR, ERROR => true
  | _, _ => false
  end.

Definition count_level (lvl : LogLevel) (entries : list LogRecord) : nat :=
  length (filter (fun r => level_eqb (level r) lvl) entries).

(** The exception that reaches the [except] clause of [startup_event],
    if any: the one the construction raised, or the one [register]
    raised. *)
Definition registration_failure (policy : DuplicatePolicy)
    (outcome : result Classifier) (r : Registry) : option exn :=
  match outcome with
  | Raise e => Some e
  | Return c =>
      match register policy c true r with
      | Raise e => Some e
      | Return _ => None
      end
  end.

Definition info (msg : string) : LogRecord :=
  {| level := INFO; message := msg |}.

(** ** Ordering of datetimes *)

(** The first decisive comparison of a list of field comparisons. *)
Fixpoint lexicographic (cs : list comparison) : comparison :=
  match cs with
  | [] => Eq
  | Eq :: rest => lexicographic rest
  | c :: _ => c
  end.

(** [d1 < d2], [d1 == d2], [d1 > d2] on naive datetimes: the fields are
    compared from the year down to the microsecond. *)
Definition datetime_compare (d1 d2 : datetime) : comparison :=
  lexicographic
    [ year d1 ?= year d2; month d1 ?= month d2; day d1 ?= day d2;
      hour d1 ?= hour d2; minute d1 ?= minute d2; second d1 ?= second d2;
      microsecond d1 ?= microsecond d2 ].

(** ** The process entry *)

Definition is_upper (c : ascii) : bool :=
  let n := N_of_ascii c in ((65 <=? n) && (n <=? 90))%N.

Definition is_ascii_char (c : ascii) : bool := (N_of_ascii c <? 128)%N.

Fixpoint str_forallb (p : ascii -> bool) (s : string) : bool :=
  match s with
  | EmptyString => true
  | String c rest => p c && str_forallb p rest
  end.

(** [c.lower()] for an ASCII character. *)
Definition ascii_lower (c : ascii) : ascii :=
  if is_upper c then ascii_of_N (N_of_ascii c + 32) else c.

(** [s.lower()] for an ASCII string: the letters [A]-[Z] become [a]-[z],
    every other character is kept. *)
Fixpoint str_lower (s : string) : string :=
  match s with
  | EmptyString => EmptyString
  | String c rest => String (ascii_lower c) (str_lower rest)
  end.

(** The arguments of [uvicorn.run]. *)
Record UvicornRun : Type := {
  target : string;
  host : string;
  port : Z;
  reload : bool;
  log_level : string
}.

(** The [if __name__ == "__main__"] block. *)
Definition main (settings : Settings) : UvicornRun :=
  {| target := "app.main:app";
     host := "0.0.0.0";
     port := 8000;
     reload := true;
     log_level := str_lower (LOG_LEVEL settings) |}.

(** * Properties *)

(** ** Splitting and joining *)

Lemma str_split_nonempty (sep : ascii) (s : string) : str_split sep s <> [].
Proof.
  destruct s as [| c rest]; simpl; [discriminate |].
  destruct (Ascii.eqb c sep); [discriminate |].
  destruct (str_split sep rest); discriminate.
Qed.

Lemma str_join_cons (sep : ascii) (f : string) (fields : list string) :
  fields <> [] ->
  str_join sep (f :: fields) = f ++ String sep (str_join sep fields).
Proof. destruct fields; [congruence | reflexivity]. Qed.

Lemma str_join_split (sep : ascii) (s : string) :
  str_join sep (str_split sep s) = s.
Proof.
  induction s as [| c rest IH]; [reflexivity |].
  simpl. destruct (Ascii.eqb_spec c sep) as [-> | Hne].
  - rewrite str_join_cons by apply str_split_nonempty.
    simpl. now rewrite IH.
  - pose proof (str_split_nonempty sep rest) as Hnil.
    destruct (str_split sep rest) as [| f fields]; [congruence |].
    destruct fields as [| g fields'].
    + simpl in *. now rewrite IH.
    + change (str_join sep (String c f :: g :: fields'))
        with (String c (str_join sep (f :: g :: fields'))).
      now rewrite IH.
Qed.

Lemma str_split_fields_clean (sep : ascii) (s : string) :
  Forall (fun f => str_count sep f = O) (str_split sep s).
Proof.
  induction s as [| c rest IH]; simpl.
  - constructor; [reflexivity | constructor].
  - destruct (Ascii.eqb c sep) eqn:Hc.
    + constructor; [reflexivity | exact IH].
    + destruct (str_split sep rest) as [| f fields].
      * constructor; [simpl; now rewrite Hc | constructor].
      * inversion IH as [| ? ? Hf Hfs]; subst.
        constructor; [simpl; rewrite Hc; exact Hf | exact Hfs].
Qed.

Lemma str_split_length (sep : ascii) (s : string) :
  length (str_split sep s) = S (str_count sep s).
Proof.
  induction s as [| c rest IH]; [reflexivity |].
  simpl. destruct (Ascii.eqb c sep).
  - simpl. now rewrite IH.
  - destruct (str_split sep rest); simpl in *; [discriminate | exact IH].
Qed.

Lemma str_split_clean_app (sep : ascii) (f rest : string) :
  str_count sep f = O ->
  str_split sep (f ++ String sep rest) = f :: str_split sep rest.
Proof.
  induction f as [| c f IH]; intros Hclean; simpl.
  - now rewrite Ascii.eqb_refl.
  - simpl in Hclean. destruct (Ascii.eqb c sep); [discriminate |].
    rewrite IH by exact Hclean. reflexivity.
Qed.

Lemma str_split_clean (sep : ascii) (f : string) :
  str_count sep f = O -> str_split sep f = [f].
Proof.
  induction f as [| c f IH]; intros Hclean; [reflexivity |].
  simpl in *. destruct (Ascii.eqb c sep); [discriminate |].
  now rewrite IH.
Qed.

(** [split] is the only way to cut a string into comma-free fields. *)
Lemma str_split_join (sep : ascii) (fields : list string) :
  fields <> [] ->
  Forall (fun f => str_count sep f = O) fields ->
  str_split sep (str_join sep fields) = fields.
Proof.
  induction fields as [| f rest IH]; intros Hne Hclean; [congruence |].
  inversion Hclean as [| ? ? Hf Hrest]; subst.
  destruct rest as [| g rest'].
  - simpl. now apply str_split_clean.
  - rewrite str_join_cons by discriminate.
    rewrite str_split_clean_app by exact Hf.
    rewrite IH; [reflexivity | discriminate | exact Hrest].
Qed.

(** ** Dictionaries *)

Section DictFacts.

Context {V : Type}.

Lemma dict_keys_map {W : Type} (f : V -> W) (d : dict V) :
  dict_keys (dict_map f d) = dict_keys d.
Proof.
  unfold dict_keys, dict_map. rewrite map_map. reflexivity.
Qed.

Lemma dict_get_map {W : Type} (f : V -> W) (k : string) (d : dict V) :
  dict_get k (dict_map f d) = option_map f (dict_get k d).
Proof.
  induction d as [| [k' v] d IH]; [reflexivity |].
  simpl. destruct (String.eqb k k'); [reflexivity | exact IH].
Qed.

Lemma dict_get_None (k : string) (d : dict V) :
  dict_get k d = None <-> ~ In k (dict_keys d).
Proof.
  induction d as [| [k' v] d IH]; simpl.
  - tauto.
  - destruct (String.eqb_spec k k') as [-> | Hne].
    + split; [discriminate | tauto].
    + rewrite IH. split; [intros H [E | I]; [congruence | tauto] | tauto].
Qed.

Lemma dict_set_fresh (k : string) (v : V) (d : dict V) :
  ~ In k (dict_keys d) -> dict_set k v d = (d ++ [(k, v)])%list.
Proof.
  induction d as [| [k' v'] d IH]; intros Hfresh; [reflexivity |].
  simpl in *. destruct (String.eqb_spec k k') as [-> | Hne]; [tauto |].
  rewrite IH by tauto. reflexivity.
Qed.

Lemma dict_set_keys_present (k : string) (v : V) (d : dict V) :
  In k (dict_keys d) -> dict_keys (dict_set k v d) = dict_keys d.
Proof.
  induction d as [| [k' v'] d IH]; intros Hin; [contradiction |].
  simpl in *. destruct (String.eqb_spec k k') as [-> | Hne]; [reflexivity |].
  simpl. rewrite IH; [reflexivity | destruct Hin; [congruence | assumption]].
Qed.

Lemma dict_set_keys (k : string) (v : V) (d : dict V) :
  dict_keys (dict_set k v d) =
  if in_dec string_dec k (dict_keys d) then dict_keys d
  else (dict_keys d ++ [k])%list.
Proof.
  destruct (in_dec string_dec k (dict_keys d)) as [Hin | Hout].
  - now apply dict_set_keys_present.
  - rewrite dict_set_fresh by exact Hout.
    unfold dict_keys. rewrite map_app. reflexivity.
Qed.

Lemma dict_set_NoDup (k : string) (v : V) (d : dict V) :
  NoDup (dict_keys d) -> NoDup (dict_keys (dict_set k v d)).
Proof.
  intros Hnd. rewrite dict_set_keys.
  destruct (in_dec string_dec k (dict_keys d)) as [Hin | Hout]; [exact Hnd |].
  apply NoDup_app; [exact Hnd | repeat constructor; simpl; tauto |].
  intros x Hx [<- | []]. contradiction.
Qed.

Lemma dict_get_set_eq (k : string) (v : V) (d : dict V) :
  dict_get k (dict_set k v d) = Some v.
Proof.
  induction d as [| [k' v'] d IH]; simpl.
  - now rewrite String.eqb_refl.
  - destruct (String.eqb k k') eqn:E; simpl.
    + now rewrite String.eqb_refl.
    + now rewrite E.
Qed.

Lemma dict_get_set_ne (k k' : string) (v : V) (d : dict V) :
  k' <> k -> dict_get k' (dict_set k v d) = dict_get k' d.
Proof.
  intros Hne. induction d as [| [k0 v0] d IH]; simpl.
  - destruct (String.eqb_spec k' k); [congruence | reflexivity].
  - destruct (String.eqb_spec k k0) as [-> | Hk]; simpl.
    + destruct (String.eqb_spec k' k0); [congruence | reflexivity].
    + destruct (String.eqb k' k0); [reflexivity | exact IH].
Qed.

(** With distinct keys, every entry of the list is what [dict_get] finds. *)
Lemma dict_get_In (k : string) (v : V) (d : dict V) :
  NoDup (dict_keys d) -> In (k, v) d -> dict_get k d = Some v.
Proof.
  induction d as [| [k' v'] d IH]; intros Hnd Hin; [contradiction |].
  simpl in *. inversion Hnd as [| ? ? Hout Hnd']; subst.
  destruct Hin as [E | Hin].
  - inversion E; subst. now rewrite String.eqb_refl.
  - destruct (String.eqb_spec k k') as [-> | Hne].
    + exfalso. apply Hout. change k' with (fst (k', v)).
      now apply in_map.
    + now apply IH.
Qed.

End DictFacts.

(** ** The registry *)

Lemma count_defaults_cleared (r : Registry) :
  count_defaults (dict_map clear_default r) = O.
Proof.
  unfold count_defaults, dict_values, dict_map.
  induction r as [| [k d] r IH]; [reflexivity | exact IH].
Qed.

Lemma count_defaults_set (k : string) (d : Descriptor) (r : Registry) :
  (count_defaults (dict_set k d r)
   <= count_defaults r + (if is_default d then 1 else 0))%nat.
Proof.
  unfold count_defaults, dict_values.
  induction r as [| [k' d'] r IH]; simpl.
  - destruct (is_default d); simpl; lia.
  - destruct (String.eqb k k'); simpl.
    + destruct (is_default d), (is_default d'); simpl; lia.
    + destruct (is_default d'); simpl; lia.
Qed.

Lemma count_defaults_set_first (k : string) (d : Descriptor) (r : Registry) :
  count_defaults r = O -> is_default d = true ->
  count_defaults (dict_set k d r) = 1%nat.
Proof.
  unfold count_defaults, dict_values. intros Hzero Hd.
  induction r as [| [k' d'] r IH]; simpl in *.
  - now rewrite Hd.
  - destruct (is_default d') eqn:Hd'; [discriminate |].
    destruct (String.eqb k k'); simpl.
    + rewrite Hd. simpl. now rewrite Hzero.
    + rewrite Hd'. now apply IH.
Qed.

Lemma register_count_defaults (policy : DuplicatePolicy) (c : Classifier)
    (flag : bool) (r r' : Registry) :
  register policy c flag r = Return r' ->
  (count_defaults r <= 1)%nat -> (count_defaults r' <= 1)%nat.
Proof.
  unfold register. intros Hreg Hinv.
  assert (Hset :
    (count_defaults
       (dict_set (model_name c) (describe c flag)
          (if flag then dict_map clear_default r else r)) <= 1)%nat).
  { pose proof (count_defaults_set (model_name c) (describe c flag)
                  (if flag then dict_map clear_default r else r)) as Hle.
    destruct flag; simpl in Hle.
    - rewrite count_defaults_cleared in Hle. lia.
    - lia. }
  destruct (dict_get (model_name c) r), policy;
    inversion Hreg; subst; exact Hset.
Qed.

Lemma register_NoDup (policy : DuplicatePolicy) (c : Classifier)
    (flag : bool) (r r' : Registry) :
  register policy c flag r = Return r' ->
  NoDup (dict_keys r) -> NoDup (dict_keys r').
Proof.
  unfold register. intros Hreg Hnd.
  assert (Hset :
    NoDup (dict_keys
       (dict_set (model_name c) (describe c flag)
          (if flag then dict_map clear_default r else r)))).
  { apply dict_set_NoDup. destruct flag; [| exact Hnd].
    now rewrite dict_keys_map. }
  destruct (dict_get (model_name c) r), policy;
    inversion Hreg; subst; exact Hset.
Qed.

Lemma registry_ok_empty : registry_ok [].
Proof. split; [apply NoDup_nil | cbn; lia]. Qed.

Lemma register_or_keep_ok (policy : DuplicatePolicy) (r : Registry)
    (call : Classifier * bool) :
  registry_ok r -> registry_ok (register_or_keep policy r call).
Proof.
  intros [Hnd Hcount]. unfold register_or_keep.
  destruct (register policy (fst call) (snd call) r) as [r' |] eqn:Hreg.
  - split; [eapply register_NoDup | eapply register_count_defaults]; eauto.
  - now split.
Qed.

Lemma register_all_ok (policy : DuplicatePolicy)
    (calls : list (Classifier * bool)) (r : Registry) :
  registry_ok r -> registry_ok (register_all policy calls r).
Proof.
  unfold register_all. revert r.
  induction calls as [| call calls IH]; intros r Hok; [exact Hok |].
  simpl. apply IH. now apply register_or_keep_ok.
Qed.

Lemma cleared_all_false (r : Registry) :
  Forall (fun kd => is_default (snd kd) = false) (dict_map clear_default r).
Proof.
  unfold dict_map. apply Forall_forall. intros kd Hin.
  apply in_map_iff in Hin. destruct Hin as [kd' [<- _]]. reflexivity.
Qed.

Lemma set_default_marks_only (k : string) (d : Descriptor) (r : Registry) :
  NoDup (dict_keys r) ->
  Forall (fun kd => is_default (snd kd) = false) r ->
  is_default d = true ->
  Forall (fun kd => is_default (snd kd) = String.eqb (fst kd) k)
         (dict_set k d r).
Proof.
  intros Hnd Hfalse Hd.
  induction r as [| [k' d'] r IH]; simpl.
  - constructor; [simpl; now rewrite String.eqb_refl | constructor].
  - inversion Hnd as [| ? ? Hout Hnd']; subst.
    inversion Hfalse as [| ? ? Hd' Hfalse']; subst.
    destruct (String.eqb_spec k k') as [-> | Hne].
    + constructor; [simpl; now rewrite String.eqb_refl |].
      apply Forall_forall. intros [k0 d0] Hin.
      rewrite Forall_forall in Hfalse'. rewrite (Hfalse' _ Hin). simpl.
      destruct (String.eqb_spec k0 k') as [-> | _]; [| reflexivity].
      exfalso. apply Hout. change k' with (fst (k', d0)). now apply in_map.
    + constructor; [| now apply IH].
      simpl in *. rewrite Hd'.
      destruct (String.eqb_spec k' k); [congruence | reflexivity].
Qed.

Lemma register_default_outcome (policy : DuplicatePolicy) (c : Classifier)
    (r : Registry) :
  NoDup (dict_keys r) ->
  match register policy c true r with
  | Return r' =>
      count_defaults r' = 1%nat /\
      Forall (fun kd => is_default (snd kd) = String.eqb (fst kd) (model_name c)) r' /\
      dict_get (model_name c) r' = Some (describe c true)
  | Raise _ => policy = RejectDuplicate /\ In (model_name c) (dict_keys r)
  end.
Proof.
  intros Hnd.
  assert (Hset :
    let r' := dict_set (model_name c) (describe c true)
                (dict_map clear_default r) in
    count_defaults r' = 1%nat /\
    Forall (fun kd => is_default (snd kd) = String.eqb (fst kd) (model_name c)) r' /\
    dict_get (model_name c) r' = Some (describe c true)).
  { repeat split.
    - apply count_defaults_set_first; [apply count_defaults_cleared | reflexivity].
    - apply set_default_marks_only;
        [now rewrite dict_keys_map | apply cleared_all_false | reflexivity].
    - apply dict_get_set_eq. }
  unfold register.
  destruct (dict_get (model_name c) r) as [d |] eqn:Hget, policy;
    try exact Hset.
  split; [reflexivity |].
  destruct (in_dec string_dec (model_name c) (dict_keys r)) as [Hin | Hout];
    [exact Hin |].
  apply dict_get_None in Hout. congruence.
Qed.

(** C5. After every call of a sequence of [register] calls on a fresh
    registry at most one descriptor has [is_default = true]; and a further
    registration with [set_as_default = true] either is refused as a
    duplicate (under the rejecting policy only) or leaves exactly one
    default, the descriptor just registered, every other flag cleared. *)
Theorem register_single_default (policy : DuplicatePolicy)
    (calls : list (Classifier * bool)) (k : nat) (c : Classifier) :
  let r := register_all policy (firstn k calls) [] in
  (count_defaults r <= 1)%nat /\
  match register policy c true r with
  | Return r' =>
      count_defaults r' = 1%nat /\
      Forall (fun kd => is_default (snd kd) = String.eqb (fst kd) (model_name c)) r' /\
      dict_get (model_name c) r' = Some (describe c true)
  | Raise _ => policy = RejectDuplicate /\ In (model_name c) (dict_keys r)
  end.
Proof.
  intros r.
  destruct (register_all_ok policy (firstn k calls) [] registry_ok_empty)
    as [Hnd Hcount].
  split; [exact Hcount |].
  now apply register_default_outcome.
Qed.

Lemma health_check_fold (r : Registry) (results : dict HealthStatus) :
  NoDup (dict_keys results ++ dict_keys r) ->
  fold_left (fun acc kd => dict_set (fst kd) (check_one (snd kd)) acc) r results
  = (results ++ dict_map check_one r)%list.
Proof.
  revert results.
  induction r as [| [k d] r IH]; intros results Hnd; simpl.
  - now rewrite app_nil_r.
  - assert (Hfresh : ~ In k (dict_keys results)).
    { apply NoDup_remove_2 in Hnd. intros Hin. apply Hnd.
      apply in_or_app. now left. }
    rewrite dict_set_fresh by exact Hfresh.
    rewrite IH.
    + now rewrite <- app_assoc.
    + unfold dict_keys in *. rewrite map_app. simpl.
      now rewrite <- app_assoc.
Qed.

Lemma health_check_all_entries (r : Registry) :
  NoDup (dict_keys r) -> health_check_all r = dict_map check_one r.
Proof.
  intros Hnd. unfold health_check_all.
  now rewrite health_check_fold.
Qed.

(** C4. For a registry of N registered models, [health_check_all()]
    returns without raising a mapping of exactly N entries, keyed by the
    model names; the entry of a model whose own check raises is an
    unhealthy status with the text of that exception, and every other
    entry is what that model's own check reported. *)
Theorem health_check_all_isolates (policy : DuplicatePolicy)
    (calls : list (Classifier * bool)) (w : World) :
  let r := register_all policy calls [] in
  let results := health_check_all r in
  length results = length r /\
  dict_keys results = dict_keys r /\
  NoDup (dict_keys results) /\
  Forall (fun kd =>
            dict_get (fst kd) results =
            Some match health_check (capability (snd kd)) with
                 | Return status => Reported status
                 | Raise e => Unhealthy (str_exn e)
                 end) r /\
  fst (registry_health_check_all w) = Return (health_check_all (registry w)).
Proof.
  intros r results.
  destruct (register_all_ok policy calls [] registry_ok_empty) as [Hnd _].
  fold r in Hnd.
  assert (Hres : results = dict_map check_one r)
    by now apply health_check_all_entries.
  assert (Hkeys : dict_keys results = dict_keys r)
    by (rewrite Hres; apply dict_keys_map).
  repeat split.
  - rewrite Hres. unfold dict_map. apply length_map.
  - exact Hkeys.
  - now rewrite Hkeys.
  - apply Forall_forall. intros [n d] Hin. simpl.
    rewrite Hres, dict_get_map.
    rewrite (dict_get_In n d r Hnd Hin). reflexivity.
Qed.

(** ** Timestamps *)

Lemma append_empty_r (s : string) : s ++ "" = s.
Proof. induction s as [| c s IH]; [reflexivity | simpl; now rewrite IH]. Qed.

Lemma append_assoc (s t u : string) : (s ++ t) ++ u = s ++ (t ++ u).
Proof. induction s as [| c s IH]; [reflexivity | simpl; now rewrite IH]. Qed.

Lemma digit_val_digit_char (d : Z) :
  0 <= d < 10 -> digit_val (digit_char d) = Some d.
Proof.
  intros Hd. unfold digit_val, digit_char.
  rewrite N_ascii_embedding by lia.
  replace ((48 <=? 48 + Z.to_N d)%N && (48 + Z.to_N d <=? 57)%N) with true.
  - f_equal. lia.
  - symmetry. apply andb_true_iff. split; apply N.leb_le; lia.
Qed.

Lemma fixed_digits_acc (w : nat) (n : Z) (acc : string) :
  fixed_digits w n acc = fixed_digits w n "" ++ acc.
Proof.
  revert n acc. induction w as [| w IH]; intros n acc; [reflexivity |].
  simpl. rewrite IH. rewrite (IH (n / 10) (String _ "")).
  now rewrite append_assoc.
Qed.

(** Reading one more digit is reading the shorter number and then its
    last digit. *)
Lemma read_digits_last (w : nat) (s : string) (acc : Z) :
  read_digits (S w) s acc =
  obind (read_digits w s acc) (fun '(v, s') =>
    match s' with
    | EmptyString => None
    | String c rest =>
        match digit_val c with
        | Some d => Some (10 * v + d, rest)
        | None => None
        end
    end).
Proof.
  revert s acc. induction w as [| w IH]; intros s acc; [reflexivity |].
  change (read_digits (S (S w)) s acc) with
    (match s with
     | EmptyString => None
     | String c rest =>
         match digit_val c with
         | Some v => read_digits (S w) rest (10 * acc + v)
         | None => None
         end
     end).
  destruct s as [| c rest]; [reflexivity |].
  simpl (read_digits (S w) (String c rest) acc).
  destruct (digit_val c) as [v |]; [apply IH | reflexivity].
Qed.

Lemma read_fixed_digits (w : nat) (n : Z) (rest : string) (acc : Z) :
  0 <= n < 10 ^ Z.of_nat w ->
  read_digits w (fixed_digits w n "" ++ rest) acc
  = Some (acc * 10 ^ Z.of_nat w + n, rest).
Proof.
  revert n rest acc. induction w as [| w IH]; intros n rest acc Hn.
  - simpl in *. f_equal. f_equal. lia.
  - rewrite Nat2Z.inj_succ, Z.pow_succ_r in * by lia.
    rewrite read_digits_last.
    simpl (fixed_digits (S w) n "").
    rewrite fixed_digits_acc, append_assoc.
    rewrite IH by (split; [apply Z.div_pos; lia
                          | apply Z.div_lt_upper_bound; lia]).
    cbn [obind append]. rewrite digit_val_digit_char by (apply Z.mod_pos_bound; lia).
    f_equal. f_equal.
    pose proof (Z.div_mod n 10 ltac:(lia)) as Hdm.
    set (p := 10 ^ Z.of_nat w) in *. nia.
Qed.

Lemma read_fmt_0d (w : nat) (n : Z) (rest : string) :
  0 <= n < 10 ^ Z.of_nat w ->
  read_digits w (fmt_0d w n ++ rest) 0 = Some (n, rest).
Proof.
  intros Hn. unfold fmt_0d.
  destruct (Z.ltb_spec n (10 ^ Z.of_nat w)) as [_ | Hge]; [| lia].
  rewrite read_fixed_digits by exact Hn. reflexivity.
Qed.

Lemma valid_datetime_ranges (d : datetime) :
  valid_datetime d = true ->
  0 <= year d < 10 ^ Z.of_nat 4 /\ 0 <= month d < 10 ^ Z.of_nat 2 /\
  0 <= day d < 10 ^ Z.of_nat 2 /\ 0 <= hour d < 10 ^ Z.of_nat 2 /\
  0 <= minute d < 10 ^ Z.of_nat 2 /\ 0 <= second d < 10 ^ Z.of_nat 2 /\
  0 <= microsecond d < 10 ^ Z.of_nat 6.
Proof.
  unfold valid_datetime. intros Hv.
  repeat (apply andb_true_iff in Hv; destruct Hv as [Hv ?]).
  assert (Hdim : days_in_month (year d) (month d) <= 31).
  { unfold days_in_month.
    repeat match goal with |- context [if ?b then _ else _] => destruct b end;
      lia. }
  change (10 ^ Z.of_nat 4) with 10000.
  change (10 ^ Z.of_nat 2) with 100.
  change (10 ^ Z.of_nat 6) with 1000000.
  lia.
Qed.

(** The ISO-8601 reader recovers a datetime from its [isoformat()]. *)
Lemma iso8601_read_isoformat (d : datetime) :
  valid_datetime d = true -> iso8601_read (isoformat d) = Some d.
Proof.
  intros Hv.
  destruct (valid_datetime_ranges d Hv)
    as (Hy & Hmo & Hd & Hh & Hmi & Hs & Hus).
  unfold iso8601_read, isoformat.
  rewrite (read_fmt_0d 4) by exact Hy. cbn [obind read_char append Ascii.eqb Bool.eqb].
  rewrite (read_fmt_0d 2) by exact Hmo. cbn [obind read_char append Ascii.eqb Bool.eqb].
  rewrite (read_fmt_0d 2) by exact Hd. cbn [obind read_char append Ascii.eqb Bool.eqb].
  rewrite (read_fmt_0d 2) by exact Hh. cbn [obind read_char append Ascii.eqb Bool.eqb].
  rewrite (read_fmt_0d 2) by exact Hmi. cbn [obind read_char append Ascii.eqb Bool.eqb].
  rewrite (read_fmt_0d 2) by exact Hs. cbn [obind].
  assert (Hfrac :
    read_fraction (if microsecond d =? 0 then ""
                   else "." ++ fmt_0d 6 (microsecond d))
    = Some (microsecond d)).
  { destruct (Z.eqb_spec (microsecond d) 0) as [E | _].
    - simpl. now rewrite E.
    - cbn [append read_fraction Ascii.eqb Bool.eqb].
      rewrite <- (append_empty_r (fmt_0d 6 (microsecond d))).
      rewrite (read_fmt_0d 6) by exact Hus. reflexivity. }
  cbn [append] in Hfrac. rewrite Hfrac. cbn [obind].
  destruct d; simpl in *. now rewrite Hv.
Qed.

(** ** The startup hook *)

Lemma for_each_logging {A : Type} (f : A -> string) (body : A -> M unit)
    (items : list A) (w : World) :
  (forall x w0,
      body x w0 =
      (Return tt,
       {| registry := registry w0;
          log := log w0 ++ [{| level := INFO; message := f x |}];
          calls := calls w0;
          utcnow := utcnow w0 |})) ->
  for_each items body w =
  (Return tt,
   {| registry := registry w;
      log := log w ++ map (fun x => {| level := INFO; message := f x |}) items;
      calls := calls w;
      utcnow := utcnow w |}).
Proof.
  intros Hbody. revert w. induction items as [| x items IH]; intros w.
  - simpl. rewrite app_nil_r. now destruct w.
  - simpl. unfold bind. rewrite Hbody, IH. simpl.
    now rewrite <- app_assoc.
Qed.

Ltac in_log :=
  lazymatch goal with
  | |- In _ (_ ++ [_]) =>
      apply in_or_app; first [right; left; reflexivity | left; in_log]
  | |- In _ (_ ++ _) => apply in_or_app; left; in_log
  end.

Lemma startup_event_run (settings : Settings) (policy : DuplicatePolicy)
    (outcome : result Classifier) (w : World) :
  exists w' : World,
    startup_event settings policy outcome w = (Return tt, w') /\
    utcnow w' = utcnow w /\
    (exists entries, log w' = (log w ++ entries)%list) /\
    (list_models (registry w') = [] -> In no_model_warning (log w')) /\
    match outcome with
    | Return c =>
        calls w' = (calls w ++ [CallRegister (model_name c) true; CallListModels])%list /\
        match register policy c true (registry w) with
        | Return r' => registry w' = r'
        | Raise e => registry w' = registry w /\ In (registration_error e) (log w')
        end
    | Raise e =>
        calls w' = (calls w ++ [CallListModels])%list /\
        registry w' = registry w /\ In (registration_error e) (log w')
    end.
Proof.
  destruct w as [r l c t].
  assert (Hloop : forall (x : string * ModelInfo) (w0 : World),
    logger_info (summary_line x) w0 =
    (Return tt,
     {| registry := registry w0;
        log := log w0 ++ [{| level := INFO; message := summary_line x |}];
        calls := calls w0;
        utcnow := utcnow w0 |})) by reflexivity.
  destruct outcome as [m | e];
    [destruct (register policy m true r) as [r' | e] eqn:Hreg |];
    cbv [startup_event bind try_except ret logger_info logger_warning
         logger_error emit registry_register registry_list_models record_call
         registry log calls utcnow fst snd];
    rewrite ?Hreg;
    match goal with
    | |- context [match list_models ?x with _ => _ end] =>
        destruct (list_models x) as [| entry entries] eqn:Hmodels
    end;
    cbv beta iota;
    rewrite ?(for_each_logging summary_line) by exact Hloop;
    cbv beta iota; cbv [registry log calls utcnow];
    eexists; (split; [reflexivity |]);
    cbv [registry log calls utcnow];
    (split; [reflexivity |]);
    (split; [rewrite <- ?app_assoc; eexists; reflexivity |]);
    (split;
     [first [intros Hnil; rewrite Hnil in Hmodels; discriminate Hmodels
            | intros _; unfold no_model_warning; in_log] |]);
    repeat split;
    first [rewrite <- ?app_assoc; reflexivity
          | unfold registration_error; in_log].
Qed.

(** C3. Whatever constructing and registering the candidate model does,
    [startup_event] returns normally: a failure of the construction or of
    the registration is caught, logged as an error and leaves the registry
    as it was; on a fresh process whose only candidate fails, the service
    starts with [list_models()] empty and a warning in the log. *)
Theorem startup_event_never_aborts (settings : Settings)
    (policy : DuplicatePolicy) (outcome : result Classifier) (w : World) :
  let run := startup_event settings policy outcome w in
  fst run = Return tt /\
  match outcome with
  | Raise e =>
      registry (snd run) = registry w /\
      In (registration_error e) (log (snd run))
  | Return c =>
      match register policy c true (registry w) with
      | Raise e =>
          registry (snd run) = registry w /\
          In (registration_error e) (log (snd run))
      | Return r' => registry (snd run) = r'
      end
  end /\
  (forall e t,
     let cold := startup_event settings policy (Raise e) (boot t) in
     fst cold = Return tt /\
     list_models (registry (snd cold)) = [] /\
     In no_model_warning (log (snd cold))).
Proof.
  intros run. subst run.
  destruct (startup_event_run settings policy outcome w)
    as (w' & Hrun & _ & _ & _ & Hout).
  rewrite Hrun. cbn [fst snd].
  split; [reflexivity |]. split.
  - destruct outcome as [c | e]; [| tauto].
    destruct Hout as [_ Hreg]. exact Hreg.
  - intros e t.
    destruct (startup_event_run settings policy (Raise e) (boot t))
      as (w0 & Hcold & _ & _ & Hwarn & _ & Hreg & _).
    rewrite Hcold. cbn [fst snd].
    assert (Hempty : list_models (registry w0) = [])
      by (rewrite Hreg; reflexivity).
    auto.
Qed.

(** ** The request handlers *)

(** C1. When the handler of a route raises, the application answers with
    status 500 and a JSON object with exactly the keys [error], [detail]
    and [timestamp]: the generic message, [str(exc)] and the ISO form of
    the UTC clock.  The answer is a normal return (nothing propagates);
    the only effect of the exception handler is one error line in the
    log. *)
Theorem unhandled_exception_response (handler : M json) (request : Request)
    (w w1 : World) (e : exn) :
  handler w = (Raise e, w1) ->
  let answer := serve handler request w in
  fst answer =
    Return {| status_code := 500;
              content := JObj [ ("error", JStr "Erreur interne du serveur");
                                ("detail", JStr (str_exn e));
                                ("timestamp", JStr (isoformat (utcnow w1))) ] |} /\
  (exists resp,
      fst answer = Return resp /\ status_code resp = 500 /\
      json_keys (content resp) = ["error"; "detail"; "timestamp"]) /\
  registry (snd answer) = registry w1 /\
  log (snd answer) =
    (log w1 ++ [ {| level := ERROR;
                    message := "Erreur non gérée: " ++ str_exn e |} ])%list.
Proof.
  intros Hraise answer. subst answer.
  unfold serve, try_except, bind. rewrite Hraise.
  split; [reflexivity |].
  split; [| split; reflexivity].
  eexists. split; [reflexivity |]. split; reflexivity.
Qed.

Lemma unhandled_exception_response_witness :
  failing_route (boot sample_instant) = (Raise sample_exn, boot sample_instant) /\
  fst (serve failing_route (endpoint_request GetRoot) (boot sample_instant)) =
    Return {| status_code := 500;
              content := JObj [ ("error", JStr "Erreur interne du serveur");
                                ("detail", JStr "boom");
                                ("timestamp", JStr "2024-02-29T09:05:00.004200") ] |}.
Proof.
  split; [reflexivity |].
  apply (unhandled_exception_response failing_route (endpoint_request GetRoot)
           (boot sample_instant) (boot sample_instant) sample_exn).
  reflexivity.
Defined.

(** C2. For every state of the registry [GET /health] returns a body whose
    [status] is the literal ["healthy"], with the API version, the
    timestamp and a [models] object holding the number of registered
    models, their names and the health map of [health_check_all()]; with
    no model registered the status is still ["healthy"] and the total 0. *)
Theorem health_always_healthy (settings : Settings) (w : World) :
  (exists body,
      fst (health settings w) = Return body /\
      json_keys body = ["status"; "version"; "timestamp"; "models"] /\
      json_get "status" body = Some (JStr "healthy") /\
      json_get "version" body = Some (JStr (API_VERSION settings)) /\
      json_get "timestamp" body = Some (JStr (isoformat (utcnow w))) /\
      json_get "models" body =
        Some (JObj [ ("total", JInt (Z.of_nat (length (registry w))));
                     ("available", JList (map JStr (dict_keys (registry w))));
                     ("health",
                      JObj (dict_map health_json
                              (health_check_all (registry w)))) ])) /\
  (forall entries trace t,
      fst (health settings
             {| registry := []; log := entries; calls := trace; utcnow := t |})
      = Return (JObj [ ("status", JStr "healthy");
                       ("version", JStr (API_VERSION settings));
                       ("timestamp", JStr (isoformat t));
                       ("models", JObj [ ("total", JInt 0);
                                         ("available", JList []);
                                         ("health", JObj []) ]) ])).
Proof.
  split.
  - eexists. split; [reflexivity |].
    repeat split.
    cbn [json_get dict_get String.eqb Ascii.eqb Bool.eqb].
    unfold list_models. rewrite dict_keys_map.
    unfold dict_map. rewrite length_map. reflexivity.
  - intros entries trace t. reflexivity.
Qed.

(** C9. In the body of [GET /health], [models.total] is the length of
    [models.available]: both come from the one [list_models()] snapshot. *)
Theorem health_total_is_available_length (settings : Settings) (w : World) :
  exists body models total available,
    fst (health settings w) = Return body /\
    json_get "models" body = Some models /\
    json_get "total" models = Some (JInt (Z.of_nat total)) /\
    json_get "available" models = Some (JList available) /\
    length available = total /\
    total = length (list_models (registry w)) /\
    available = map JStr (dict_keys (list_models (registry w))).
Proof.
  do 4 eexists.
  split; [reflexivity |].
  split; [reflexivity |].
  split; [reflexivity |].
  split; [reflexivity |].
  split; [| split; reflexivity].
  unfold dict_keys. now rewrite !length_map.
Qed.

(** C6. [GET /] has no side effect and always returns the same body: the
    state is returned as it was, and two calls, in whatever states, return
    the same four fields, [message], [docs] and [health] being constants
    and [version] the configured one. *)
Theorem root_idempotent (settings : Settings) (w1 w2 : World) :
  exists body,
    root settings w1 = (Return body, w1) /\
    root settings w2 = (Return body, w2) /\
    snd (root settings (snd (root settings w1))) = w1 /\
    serve (root settings) (endpoint_request GetRoot) w1
      = (Return {| status_code := 200; content := body |}, w1) /\
    json_keys body = ["message"; "version"; "docs"; "health"] /\
    json_get "message" body = Some (JStr "API de Détection de Dépression") /\
    json_get "version" body = Some (JStr (API_VERSION settings)) /\
    json_get "docs" body = Some (JStr "/docs") /\
    json_get "health" body = Some (JStr "/health").
Proof.
  eexists. repeat split.
Qed.

(** ** The registry after startup *)

Lemma serve_endpoint_frame (settings : Settings) (ep : Endpoint) (w : World) :
  let w' := snd (serve (endpoint_handler settings ep) (endpoint_request ep) w) in
  registry w' = registry w /\
  filter is_register_call (calls w') = filter is_register_call (calls w).
Proof.
  destruct ep.
  - split; reflexivity.
  - split; [reflexivity |].
    change (calls (snd (serve (endpoint_handler settings GetHealth)
                          (endpoint_request GetHealth) w)))
      with ((calls w ++ [CallHealthCheckAll]) ++ [CallListModels])%list.
    rewrite !filter_app. simpl. now rewrite !app_nil_r.
Qed.

Lemma serve_all_frame (settings : Settings)
    (requests : list (Endpoint * datetime)) (w : World) :
  registry (serve_all settings requests w) = registry w /\
  filter is_register_call (calls (serve_all settings requests w))
  = filter is_register_call (calls w).
Proof.
  revert w. induction requests as [| [ep t] requests IH]; intros w.
  - split; reflexivity.
  - cbn [serve_all].
    destruct (IH (snd (serve (endpoint_handler settings ep)
                         (endpoint_request ep) (at_time t w)))) as [Hr Hc].
    destruct (serve_endpoint_frame settings ep (at_time t w)) as [Hr1 Hc1].
    cbv zeta in Hr1, Hc1.
    rewrite Hr, Hc, Hr1, Hc1. split; reflexivity.
Qed.

(** C7. Serving requests never changes the registry: after any sequence
    of [GET /] and [GET /health] requests the registry is the one startup
    left, and no [register] call has been added to the trace.  [GET /]
    does not touch the registry object, [GET /health] calls
    [health_check_all] and [list_models] only, the exception handler
    calls nothing; the one [register] call is made by [startup_event]. *)
Theorem registry_read_only_after_startup (settings : Settings)
    (requests : list (Endpoint * datetime)) (w : World) :
  registry (serve_all settings requests w) = registry w /\
  filter is_register_call (calls (serve_all settings requests w))
  = filter is_register_call (calls w) /\
  calls (snd (root settings w)) = calls w /\
  calls (snd (health settings w))
  = ((calls w ++ [CallHealthCheckAll]) ++ [CallListModels])%list /\
  registry (snd (health settings w)) = registry w /\
  (forall request exc,
      calls (snd (global_exception_handler request exc w)) = calls w /\
      registry (snd (global_exception_handler request exc w)) = registry w) /\
  (forall policy outcome,
      filter is_register_call
        (calls (snd (startup_event settings policy outcome w)))
      = (filter is_register_call (calls w)
         ++ match outcome with
            | Return c => [CallRegister (model_name c) true]
            | Raise _ => []
            end)%list).
Proof.
  destruct (serve_all_frame settings requests w) as [Hr Hc].
  split; [exact Hr |]. split; [exact Hc |].
  split; [reflexivity |]. split; [reflexivity |]. split; [reflexivity |].
  split; [intros request exc; split; reflexivity |].
  intros policy outcome.
  destruct (startup_event_run settings policy outcome w)
    as (w' & Hrun & _ & _ & _ & Hout).
  rewrite Hrun. cbn [snd].
  destruct outcome as [c | e].
  - destruct Hout as [-> _]. rewrite filter_app. reflexivity.
  - destruct Hout as [-> _]. rewrite filter_app. reflexivity.
Qed.

(** ** Timestamps of the responses *)

(** C8. The [timestamp] of a [GET /health] body and of the body built by
    the global exception handler is the [isoformat()] of the UTC clock: a
    string that the ISO-8601 reader accepts and reads back as exactly
    that UTC instant. *)
Theorem timestamps_are_utc_iso8601 (settings : Settings) (request : Request)
    (exc : exn) (w : World) :
  valid_datetime (utcnow w) = true ->
  exists body resp ts,
    fst (health settings w) = Return body /\
    json_get "timestamp" body = Some (JStr ts) /\
    fst (global_exception_handler request exc w) = Return resp /\
    json_get "timestamp" (content resp) = Some (JStr ts) /\
    ts = isoformat (utcnow w) /\
    iso8601_read ts = Some (utcnow w).
Proof.
  intros Hvalid.
  do 3 eexists.
  split; [reflexivity |]. split; [reflexivity |].
  split; [reflexivity |]. split; [reflexivity |].
  split; [reflexivity |].
  now apply iso8601_read_isoformat.
Qed.

Lemma timestamps_are_utc_iso8601_witness :
  valid_datetime (utcnow (boot sample_instant)) = true /\
  exists body resp ts,
    fst (health sample_settings (boot sample_instant)) = Return body /\
    json_get "timestamp" body = Some (JStr ts) /\
    fst (global_exception_handler (endpoint_request GetHealth) sample_exn
           (boot sample_instant)) = Return resp /\
    json_get "timestamp" (content resp) = Some (JStr ts) /\
    ts = isoformat (utcnow (boot sample_instant)) /\
    iso8601_read ts = Some (utcnow (boot sample_instant)).
Proof.
  split; [reflexivity |].
  apply (timestamps_are_utc_iso8601 sample_settings
           (endpoint_request GetHealth) sample_exn (boot sample_instant)).
  reflexivity.
Defined.

(** ** CORS *)

(** C10. The allow-origin list of the CORS middleware is the split of
    [CORS_ORIGINS] at its commas: joining the origins with commas gives
    the configuration string back, character for character (whitespace
    included), no origin contains a comma, there is one origin more than
    there are commas, hence never none; an empty configuration string
    gives the single origin [""]. *)
Theorem cors_allow_origins_is_split (settings : Settings) :
  cors_allow_origins settings = str_split comma (CORS_ORIGINS settings) /\
  str_join comma (cors_allow_origins settings) = CORS_ORIGINS settings /\
  Forall (fun origin => str_count comma origin = O) (cors_allow_origins settings) /\
  length (cors_allow_origins settings) = S (str_count comma (CORS_ORIGINS settings)) /\
  cors_allow_origins settings <> [] /\
  (forall t v d lvl,
      cors_allow_origins
        {| API_TITLE := t; API_VERSION := v; API_DESCRIPTION := d;
           CORS_ORIGINS := ""; LOG_LEVEL := lvl |} = [""]) /\
  cors_allow_origins sample_settings
  = ["http://localhost:3000"; " http://localhost:8080"].
Proof.
  assert (Hsplit :
    cors_allow_origins settings = str_split comma (CORS_ORIGINS settings)).
  { unfold cors_allow_origins. cbn [app user_middleware map allow_origins concat].
    apply app_nil_r. }
  rewrite Hsplit.
  split; [reflexivity |].
  split; [apply str_join_split |].
  split; [apply str_split_fields_clean |].
  split; [apply str_split_length |].
  split; [apply str_split_nonempty |].
  split; reflexivity.
Qed.

(** ** Worked examples *)

Example split_keeps_whitespace :
  str_split comma "a, b,,c" = ["a"; " b"; ""; "c"].
Proof. reflexivity. Qed.

Example isoformat_whole_second :
  isoformat (mk_datetime 2024 2 29 9 5 0 0) = "2024-02-29T09:05:00".
Proof. reflexivity. Qed.

Example isoformat_with_microseconds :
  isoformat sample_instant = "2024-02-29T09:05:00.004200".
Proof. reflexivity. Qed.

Example iso8601_read_rejects_bad_date :
  iso8601_read "2023-02-29T09:05:00" = None.
Proof. reflexivity. Qed.

(** Register "A" 1.0 as default, then "B" 2.0 not as default. *)
Example list_models_scenario :
  let a := {| model_name := "A"; model_version := "1.0";
              model_author := "a"; health_check := Return JNull |} in
  let b := {| model_name := "B"; model_version := "2.0";
              model_author := "b";
              health_check := Raise (Exception "RuntimeError" "down") |} in
  let r := register_all RejectDuplicate [(a, true); (b, false)] [] in
  list_models r =
    [ ("A", {| info_version := "1.0"; info_author := "a";
               info_is_default := true |});
      ("B", {| info_version := "2.0"; info_author := "b";
               info_is_default := false |}) ] /\
  health_check_all r = [ ("A", Reported JNull); ("B", Unhealthy "down") ].
Proof. split; reflexivity. Qed.

Example startup_with_failing_model :
  let run := startup_event sample_settings RejectDuplicate
               (Raise (Exception "ImportError" "No module named openai"))
               (boot sample_instant) in
  fst run = Return tt /\ registry (snd run) = [] /\
  calls (snd run) = [CallListModels].
Proof. repeat split. Qed.

(** A registration refused as a duplicate is caught like a failed
    construction: the registry keeps its one entry and startup returns. *)
Example startup_with_rejected_registration :
  let m := {| model_name := "yansnet-llm"; model_version := "1.0";
              model_author := "YANSNET"; health_check := Return JNull |} in
  let w := {| registry := [("yansnet-llm", describe m false)]; log := [];
              calls := []; utcnow := sample_instant |} in
  let run := startup_event sample_settings RejectDuplicate (Return m) w in
  fst run = Return tt /\ registry (snd run) = registry w /\
  In (registration_error (duplicate_error "yansnet-llm")) (log (snd run)).
Proof.
  cbv zeta. split; [reflexivity |]. split; [reflexivity |].
  vm_compute. do 6 right. left. reflexivity.
Qed.

(** * Further properties of the bootstrap *)

(** ** What [startup_event] logs *)

Lemma skipn_length_app {A : Type} (l x : list A) :
  skipn (length l) (l ++ x) = x.
Proof. induction l as [| a l IH]; [reflexivity | exact IH]. Qed.

(** The exact state [startup_event] ends in. *)
Lemma startup_event_state (settings : Settings) (policy : DuplicatePolicy)
    (outcome : result Classifier) (w : World) :
  let w' := snd (startup_event settings policy outcome w) in
  registry w' =
    match outcome with
    | Return c => register_or_keep policy (registry w) (c, true)
    | Raise _ => registry w
    end /\
  utcnow w' = utcnow w /\
  log w' = (log w ++ emitted w w')%list /\
  emitted w w' =
    ([ info (rule "=");
       info (API_TITLE settings ++ " v" ++ API_VERSION settings);
       info "Architecture Multi-Modèles";
       info (rule "=");
       info (String newline "📦 Enregistrement des modèles...");
       info (rule "-") ]
     ++ match registration_failure policy outcome (registry w) with
        | Some e =>
            [ registration_error e;
              {| level := ERROR;
                 message := "  Vérifiez que .env est configuré avec les clés API" |} ]
        | None => []
        end
     ++ [ info (rule "-") ]
     ++ match list_models (registry w') with
        | [] => [ no_model_warning ]
        | models =>
            info ("✓ " ++ str_nat (length models) ++ " modèle(s) enregistré(s):")
            :: map (fun entry => info (summary_line entry)) models
        end
     ++ [ info (rule "=");
          info "✓ API démarrée avec succès!";
          info "📚 Documentation: http://localhost:8000/docs";
          info "📋 Modèles disponibles: http://localhost:8000/api/v1/models";
          info (rule "=") ])%list.
Proof.
  destruct w as [r l c t].
  assert (Hloop : forall (x : string * ModelInfo) (w0 : World),
    logger_info (summary_line x) w0 =
    (Return tt,
     {| registry := registry w0;
        log := log w0 ++ [{| level := INFO; message := summary_line x |}];
        calls := calls w0;
        utcnow := utcnow w0 |})) by reflexivity.
  unfold emitted, registration_failure, register_or_keep.
  destruct outcome as [m | e];
    [destruct (register policy m true r) as [r' | e] eqn:Hreg |];
    cbv [startup_event bind try_except ret logger_info logger_warning
         logger_error emit registry_register registry_list_models record_call
         registry log calls utcnow fst snd];
    rewrite ?Hreg;
    match goal with
    | |- context [match list_models ?x with _ => _ end] =>
        destruct (list_models x) as [| entry entries] eqn:Hmodels
    end;
    cbv beta iota;
    rewrite ?(for_each_logging summary_line) by exact Hloop;
    cbv beta iota; cbv [registry log calls utcnow snd];
    rewrite ?Hmodels;
    rewrite <- ?app_assoc; rewrite skipn_length_app;
    repeat split.
Qed.

Lemma count_level_app (lvl : LogLevel) (a b : list LogRecord) :
  count_level lvl (a ++ b) = (count_level lvl a + count_level lvl b)%nat.
Proof. unfold count_level. now rewrite filter_app, length_app. Qed.

Lemma count_level_infos {A : Type} (lvl : LogLevel) (f : A -> string)
    (items : list A) :
  count_level lvl (map (fun x => info (f x)) items)
  = if level_eqb INFO lvl then length items else O.
Proof.
  unfold count_level.
  induction items as [| x items IH]; destruct lvl; simpl in *; auto.
Qed.

Lemma count_level_cons (lvl : LogLevel) (x : LogRecord) (l : list LogRecord) :
  count_level lvl (x :: l)
  = ((if level_eqb (level x) lvl then 1 else 0) + count_level lvl l)%nat.
Proof.
  unfold count_level. simpl. now destruct (level_eqb (level x) lvl).
Qed.

(** The hook logs at level ERROR exactly when the construction or the
    registration of the model raised: two records then (the exception and
    the hint about [.env]), none otherwise. *)
Theorem startup_logs_error_iff_failure (settings : Settings)
    (policy : DuplicatePolicy) (outcome : result Classifier) (w : World) :
  let w' := snd (startup_event settings policy outcome w) in
  count_level ERROR (emitted w w') =
    match registration_failure policy outcome (registry w) with
    | Some _ => 2%nat
    | None => O
    end /\
  match registration_failure policy outcome (registry w) with
  | Some e => In (registration_error e) (emitted w w')
  | None => registry w' <> [] 
  end.
Proof.
  intros w'.
  destruct (startup_event_state settings policy outcome w)
    as (Hreg & _ & _ & Hlog).
  fold w' in Hreg, Hlog. rewrite Hlog.
  rewrite !count_level_app.
  assert (Hsummary :
    count_level ERROR
      match list_models (registry w') with
      | [] => [no_model_warning]
      | (_ :: _) as models =>
          info ("✓ " ++ str_nat (length models) ++ " modèle(s) enregistré(s):")
          :: map (fun entry => info (summary_line entry)) models
      end = O).
  { destruct (list_models (registry w')) as [| entry entries]; [reflexivity |].
    rewrite count_level_cons, (count_level_infos ERROR summary_line).
    reflexivity. }
  rewrite Hsummary.
  unfold registration_failure in *.
  destruct outcome as [c | e].
  - destruct (register policy c true (registry w)) as [r' | e] eqn:Hr.
    + split; [reflexivity |].
      rewrite Hreg. unfold register_or_keep. cbn [fst snd]. rewrite Hr.
      unfold register in Hr.
      destruct (dict_get (model_name c) (registry w)), policy;
        inversion Hr;
        match goal with
        | |- dict_set ?k ?d ?r <> [] => destruct r as [| [k0 d0] r0]; simpl;
            [discriminate | destruct (String.eqb k k0); discriminate]
        end.
    + split; [reflexivity |].
      apply in_or_app. right. apply in_or_app. left. left. reflexivity.
  - split; [reflexivity |].
    apply in_or_app. right. apply in_or_app. left. left. reflexivity.
Qed.

(** The hook warns that no model is registered exactly when
    [list_models()] is empty once the registration block is over;
    otherwise it logs the number of models and one line per model, in the
    order of the registry. *)
Theorem startup_warns_iff_no_model (settings : Settings)
    (policy : DuplicatePolicy) (outcome : result Classifier) (w : World) :
  let w' := snd (startup_event settings policy outcome w) in
  match list_models (registry w') with
  | [] =>
      count_level WARNING (emitted w w') = 1%nat /\
      In no_model_warning (emitted w w') /\
      count_level INFO (emitted w w') = 12%nat
  | (_ :: _) as models =>
      count_level WARNING (emitted w w') = O /\
      In (info ("✓ " ++ str_nat (length models) ++ " modèle(s) enregistré(s):"))
         (emitted w w') /\
      Forall (fun entry => In (info (summary_line entry)) (emitted w w')) models /\
      count_level INFO (emitted w w') = (13 + length models)%nat
  end.
Proof.
  intros w'.
  destruct (startup_event_state settings policy outcome w)
    as (_ & _ & _ & Hlog).
  fold w' in Hlog. rewrite Hlog. clear Hlog.
  destruct (list_models (registry w')) as [| entry entries]; cbv beta iota.
  - repeat split.
    + rewrite !count_level_app.
      destruct (registration_failure policy outcome (registry w)); reflexivity.
    + do 3 (apply in_or_app; right). apply in_or_app. left. left. reflexivity.
    + rewrite !count_level_app.
      destruct (registration_failure policy outcome (registry w)); reflexivity.
  - repeat split.
    + rewrite !count_level_app, !count_level_cons,
        (count_level_infos WARNING summary_line).
      destruct (registration_failure policy outcome (registry w)); reflexivity.
    + do 3 (apply in_or_app; right). apply in_or_app. left. left. reflexivity.
    + apply Forall_forall. intros e He.
      do 3 (apply in_or_app; right). apply in_or_app. left. right.
      now apply (in_map (fun entry => info (summary_line entry))).
    + rewrite !count_level_app, !count_level_cons,
        (count_level_infos INFO summary_line).
      destruct (registration_failure policy outcome (registry w));
        cbn; lia.
Qed.

(** Whatever happened to the model, the hook ends with the same five
    records, among them the announcement that the API started
    successfully: a start with no model is not told apart in the final
    banner. *)
Theorem startup_always_announces_success (settings : Settings)
    (policy : DuplicatePolicy) (outcome : result Classifier) (w : World) :
  let w' := snd (startup_event settings policy outcome w) in
  exists earlier,
    log w' =
      (earlier ++
       [ info (rule "=");
         info "✓ API démarrée avec succès!";
         info "📚 Documentation: http://localhost:8000/docs";
         info "📋 Modèles disponibles: http://localhost:8000/api/v1/models";
         info (rule "=") ])%list /\
    fst (startup_event settings policy outcome w) = Return tt.
Proof.
  intros w'.
  destruct (startup_event_state settings policy outcome w)
    as (_ & _ & Hprefix & Hlog).
  fold w' in Hprefix, Hlog.
  destruct (startup_event_run settings policy outcome w) as (w0 & Hrun & _).
  rewrite Hrun. cbn [fst].
  rewrite Hprefix, Hlog.
  rewrite !app_assoc. eexists. split; reflexivity.
Qed.

(** ** [GET /health] *)

Lemma health_run (settings : Settings) (w : World) :
  health settings w =
  (Return
     (JObj [ ("status", JStr "healthy");
             ("version", JStr (API_VERSION settings));
             ("timestamp", JStr (isoformat (utcnow w)));
             ("models",
              JObj [ ("total", JInt (Z.of_nat (length (list_models (registry w)))));
                     ("available",
                      JList (map JStr (dict_keys (list_models (registry w)))));
                     ("health",
                      JObj (dict_map health_json
                              (health_check_all (registry w)))) ]) ]),
   record_call CallListModels (record_call CallHealthCheckAll w)).
Proof. reflexivity. Qed.




(** [GET /health] is always answered with status 200 and never through
    the exception handler: nothing is logged, the registry and the clock
    are untouched, and two registry methods have been called. *)
Theorem health_answers_200 (settings : Settings) (request : Request)
    (w : World) :
  exists body,
    fst (health settings w) = Return body /\
    serve (health settings) request w
    = (Return {| status_code := 200; content := body |},
       {| registry := registry w;
          log := log w;
          calls := (calls w ++ [CallHealthCheckAll]) ++ [CallListModels];
          utcnow := utcnow w |}).
Proof.
  eexists. split; reflexivity.
Qed.

(** ** Startup followed by a health check *)

Lemma startup_fresh_registry (settings : Settings) (policy : DuplicatePolicy)
    (outcome : result Classifier) (t : datetime) :
  registry (snd (startup_event settings policy outcome (boot t))) =
  match outcome with
  | Return c => [(model_name c, describe c true)]
  | Raise _ => []
  end.
Proof.
  destruct (startup_event_state settings policy outcome (boot t))
    as (Hreg & _).
  rewrite Hreg. destruct outcome as [c | e]; [| reflexivity].
  destruct policy; reflexivity.
Qed.

(** On a fresh process, a health check made after startup reports the
    model of the hook when its construction succeeded (total 1, its name
    the one available model, flagged as default in [list_models()]) and
    no model when it failed (total 0, nothing available), under either
    duplicate policy. *)
Theorem health_after_startup (settings : Settings) (policy : DuplicatePolicy)
    (outcome : result Classifier) (t t' : datetime) :
  let started := snd (startup_event settings policy outcome (boot t)) in
  exists body models,
    fst (health settings (at_time t' started)) = Return body /\
    json_get "models" body = Some models /\
    match outcome with
    | Return c =>
        json_get "total" models = Some (JInt 1) /\
        json_get "available" models = Some (JList [JStr (model_name c)]) /\
        list_models (registry started)
        = [ (model_name c,
             {| info_version := model_version c;
                info_author := model_author c;
                info_is_default := true |}) ]
    | Raise _ =>
        json_get "total" models = Some (JInt 0) /\
        json_get "available" models = Some (JList []) /\
        list_models (registry started) = []
    end.
Proof.
  intros started.
  pose proof (startup_fresh_registry settings policy outcome t) as Hreg.
  fold started in Hreg.
  rewrite health_run. cbn [fst at_time registry utcnow].
  rewrite Hreg.
  do 2 eexists. split; [reflexivity |]. split; [reflexivity |].
  destruct outcome as [c | e]; repeat split.
Qed.

(** ** Running the startup hook again *)

Lemma dict_map_set {V W : Type} (f : V -> W) (k : string) (v : V) (d : dict V) :
  dict_map f (dict_set k v d) = dict_set k (f v) (dict_map f d).
Proof.
  induction d as [| [k' v'] d IH]; [reflexivity |].
  simpl. destruct (String.eqb k k'); simpl; [reflexivity | now rewrite IH].
Qed.

Lemma dict_set_set {V : Type} (k : string) (v v' : V) (d : dict V) :
  dict_set k v (dict_set k v' d) = dict_set k v d.
Proof.
  induction d as [| [k0 v0] d IH]; simpl.
  - now rewrite String.eqb_refl.
  - destruct (String.eqb k k0) eqn:E; simpl.
    + now rewrite String.eqb_refl.
    + now rewrite E, IH.
Qed.

Lemma clear_default_twice (r : Registry) :
  dict_map clear_default (dict_map clear_default r) = dict_map clear_default r.
Proof.
  unfold dict_map. rewrite map_map. apply map_ext. intros [k d]. reflexivity.
Qed.

Lemma register_or_keep_again (policy : DuplicatePolicy) (c : Classifier)
    (r : Registry) :
  register_or_keep policy (register_or_keep policy r (c, true)) (c, true)
  = register_or_keep policy r (c, true).
Proof.
  unfold register_or_keep, register. cbn [fst snd].
  destruct policy.
  - destruct (dict_get (model_name c) r) as [d |] eqn:Hget.
    + now rewrite Hget.
    + now rewrite dict_get_set_eq.
  - assert (Hset :
      dict_set (model_name c) (describe c true)
        (dict_map clear_default
           (dict_set (model_name c) (describe c true)
              (dict_map clear_default r)))
      = dict_set (model_name c) (describe c true) (dict_map clear_default r)).
    { now rewrite dict_map_set, dict_set_set, clear_default_twice. }
    destruct (dict_get (model_name c) r);
      destruct (dict_get (model_name c)
                  (dict_set (model_name c) (describe c true)
                     (dict_map clear_default r)));
      exact Hset.
Qed.

(** Running [startup_event] a second time in the same process, the model
    being constructed as the first time, returns normally and leaves the
    registry exactly as the first run left it, whatever was registered
    before and whichever way duplicates are treated. *)
Theorem startup_again_keeps_registry (settings : Settings)
    (policy : DuplicatePolicy) (c : Classifier) (w : World) :
  let first := startup_event settings policy (Return c) w in
  let second := startup_event settings policy (Return c) (snd first) in
  fst second = Return tt /\
  registry (snd second) = registry (snd first) /\
  list_models (registry (snd second)) = list_models (registry (snd first)).
Proof.
  intros first second.
  destruct (startup_event_state settings policy (Return c) w) as (Hr1 & _).
  destruct (startup_event_state settings policy (Return c) (snd first))
    as (Hr2 & _).
  destruct (startup_event_run settings policy (Return c) (snd first))
    as (w2 & Hrun & _).
  fold first in Hr1. fold second in Hr2.
  assert (Hsame : registry (snd second) = registry (snd first)).
  { rewrite Hr2, Hr1. apply register_or_keep_again. }
  subst second. rewrite Hrun in *. cbn [fst snd] in *.
  split; [reflexivity |]. split; [exact Hsame | now rewrite Hsame].
Qed.

(** ** The shape of the timestamps *)

Lemma fixed_digits_length (w : nat) (n : Z) (acc : string) :
  String.length (fixed_digits w n acc) = (w + String.length acc)%nat.
Proof.
  revert n acc. induction w as [| w IH]; intros n acc; [reflexivity |].
  simpl. rewrite IH. simpl. lia.
Qed.

Lemma string_length_app (s t : string) :
  String.length (s ++ t) = (String.length s + String.length t)%nat.
Proof. induction s as [| c s IH]; [reflexivity | simpl; now rewrite IH]. Qed.

Lemma fmt_0d_fixed (w : nat) (n : Z) :
  0 <= n < 10 ^ Z.of_nat w -> fmt_0d w n = fixed_digits w n "".
Proof.
  intros Hn. unfold fmt_0d.
  destruct (Z.ltb_spec n (10 ^ Z.of_nat w)); [reflexivity | lia].
Qed.

(** The fields of a valid datetime are printed with their fixed widths. *)
Lemma isoformat_fixed (d : datetime) :
  valid_datetime d = true ->
  isoformat d =
  fixed_digits 4 (year d) "" ++ "-" ++ fixed_digits 2 (month d) "" ++ "-"
  ++ fixed_digits 2 (day d) "" ++ "T" ++ fixed_digits 2 (hour d) "" ++ ":"
  ++ fixed_digits 2 (minute d) "" ++ ":" ++ fixed_digits 2 (second d) ""
  ++ (if microsecond d =? 0 then ""
      else "." ++ fixed_digits 6 (microsecond d) "").
Proof.
  intros Hv.
  destruct (valid_datetime_ranges d Hv)
    as (Hy & Hmo & Hd & Hh & Hmi & Hs & Hus).
  unfold isoformat.
  now rewrite (fmt_0d_fixed 4), !(fmt_0d_fixed 2), (fmt_0d_fixed 6).
Qed.

(** A timestamp has 19 characters when the clock shows a whole second
    and 26 otherwise: [isoformat()] leaves the fraction out when the
    microsecond is zero. *)
Theorem timestamp_length (settings : Settings) (w : World) :
  valid_datetime (utcnow w) = true ->
  exists body ts,
    fst (health settings w) = Return body /\
    json_get "timestamp" body = Some (JStr ts) /\
    String.length ts = if microsecond (utcnow w) =? 0 then 19%nat else 26%nat.
Proof.
  intros Hv. rewrite health_run. cbn [fst].
  do 2 eexists. split; [reflexivity |]. split; [reflexivity |].
  rewrite (isoformat_fixed _ Hv).
  repeat rewrite ?string_length_app, ?fixed_digits_length.
  destruct (microsecond (utcnow w) =? 0);
    repeat rewrite ?string_length_app, ?fixed_digits_length; reflexivity.
Qed.

Lemma timestamp_length_witness :
  exists body ts,
    fst (health sample_settings (boot sample_instant)) = Return body /\
    json_get "timestamp" body = Some (JStr ts) /\
    String.length ts = 26%nat.
Proof.
  apply (timestamp_length sample_settings (boot sample_instant)).
  reflexivity.
Defined.

Lemma str_count_append (c : ascii) (s t : string) :
  str_count c (s ++ t) = (str_count c s + str_count c t)%nat.
Proof.
  induction s as [| c' s IH]; [reflexivity |].
  simpl. rewrite IH. lia.
Qed.

(** A character that is not a decimal digit does not occur among printed
    digits. *)
Lemma str_count_fixed_digits (c : ascii) (w : nat) (n : Z) (acc : string) :
  digit_val c = None ->
  str_count c (fixed_digits w n acc) = str_count c acc.
Proof.
  intros Hc. revert n acc.
  induction w as [| w IH]; intros n acc; [reflexivity |].
  simpl. rewrite IH. simpl.
  destruct (Ascii.eqb_spec (digit_char (n mod 10)) c) as [E | _];
    [| reflexivity].
  rewrite <- E in Hc.
  rewrite digit_val_digit_char in Hc by (apply Z.mod_pos_bound; lia).
  discriminate.
Qed.

(** A timestamp is made of digits and of the separators of the extended
    format only: two hyphens, one [T], two colons and at most one dot.
    It carries no UTC designator ([Z]) and no offset sign: that the
    instant is UTC cannot be read off the string. *)
Theorem timestamp_has_no_utc_designator (request : Request) (exc : exn)
    (w : World) :
  valid_datetime (utcnow w) = true ->
  exists resp ts,
    fst (global_exception_handler request exc w) = Return resp /\
    json_get "timestamp" (content resp) = Some (JStr ts) /\
    str_count "Z"%char ts = O /\ str_count "+"%char ts = O /\
    str_count "-"%char ts = 2%nat /\ str_count "T"%char ts = 1%nat /\
    str_count ":"%char ts = 2%nat /\
    str_count "."%char ts = if microsecond (utcnow w) =? 0 then O else 1%nat.
Proof.
  intros Hv.
  do 2 eexists. split; [reflexivity |]. split; [reflexivity |].
  cbn [utcnow]. rewrite (isoformat_fixed _ Hv).
  repeat split;
    repeat rewrite ?str_count_append, ?str_count_fixed_digits by reflexivity;
    destruct (microsecond (utcnow w) =? 0);
    repeat rewrite ?str_count_append, ?str_count_fixed_digits by reflexivity;
    reflexivity.
Qed.

Lemma timestamp_has_no_utc_designator_witness :
  exists resp ts,
    fst (global_exception_handler (endpoint_request GetRoot) sample_exn
           (boot sample_instant)) = Return resp /\
    json_get "timestamp" (content resp) = Some (JStr ts) /\
    str_count "Z"%char ts = O /\ str_count "+"%char ts = O /\
    str_count "-"%char ts = 2%nat /\ str_count "T"%char ts = 1%nat /\
    str_count ":"%char ts = 2%nat /\
    str_count "."%char ts = 1%nat.
Proof.
  apply (timestamp_has_no_utc_designator (endpoint_request GetRoot) sample_exn
           (boot sample_instant)).
  reflexivity.
Defined.

(** Two different instants never give the same timestamp. *)
Theorem timestamp_injective (d1 d2 : datetime) :
  valid_datetime d1 = true -> valid_datetime d2 = true ->
  d1 <> d2 -> isoformat d1 <> isoformat d2.
Proof.
  intros Hv1 Hv2 Hne Heq. apply Hne.
  pose proof (iso8601_read_isoformat d1 Hv1) as H1.
  pose proof (iso8601_read_isoformat d2 Hv2) as H2.
  rewrite Heq in H1. congruence.
Qed.

Lemma timestamp_injective_witness :
  isoformat sample_instant <> isoformat (mk_datetime 2024 2 29 9 5 0 0).
Proof.
  apply (timestamp_injective sample_instant (mk_datetime 2024 2 29 9 5 0 0));
    [reflexivity | reflexivity | discriminate].
Defined.

(** ** Timestamps sort chronologically *)

Ltac compare_by_lia :=
  match goal with
  | |- _ = (?a ?= ?b) =>
      destruct (Z.compare_spec a b);
      [apply Z.compare_eq_iff | apply Z.compare_lt_iff | apply Z.compare_gt_iff];
      lia
  end.

Lemma digit_char_compare (a b : Z) :
  0 <= a < 10 -> 0 <= b < 10 ->
  Ascii.compare (digit_char a) (digit_char b) = (a ?= b).
Proof.
  intros Ha Hb. unfold Ascii.compare, digit_char.
  rewrite !N_ascii_embedding by lia.
  rewrite <- N2Z.inj_compare. compare_by_lia.
Qed.

Lemma compare_fixed_digits (w : nat) (a b : Z) (s t : string) :
  0 <= a < 10 ^ Z.of_nat w -> 0 <= b < 10 ^ Z.of_nat w ->
  String.compare (fixed_digits w a "" ++ s) (fixed_digits w b "" ++ t)
  = match a ?= b with
    | Eq => String.compare s t
    | Lt => Lt
    | Gt => Gt
    end.
Proof.
  revert a b s t. induction w as [| w IH]; intros a b s t Ha Hb.
  - simpl in *. replace (a ?= b) with Eq; [reflexivity |].
    symmetry. apply Z.compare_eq_iff. lia.
  - rewrite Nat2Z.inj_succ, Z.pow_succ_r in Ha, Hb by lia.
    simpl (fixed_digits (S w) _ ""). 
    rewrite (fixed_digits_acc w (a / 10)), (fixed_digits_acc w (b / 10)).
    rewrite !append_assoc.
    rewrite IH
      by (split; [apply Z.div_pos; lia | apply Z.div_lt_upper_bound; lia]).
    cbn [append String.compare].
    rewrite digit_char_compare by (apply Z.mod_pos_bound; lia).
    pose proof (Z.div_mod a 10 ltac:(lia)) as Hda.
    pose proof (Z.div_mod b 10 ltac:(lia)) as Hdb.
    pose proof (Z.mod_pos_bound a 10 ltac:(lia)) as Hra.
    pose proof (Z.mod_pos_bound b 10 ltac:(lia)) as Hrb.
    destruct (Z.compare_spec (a / 10) (b / 10));
      destruct (Z.compare_spec (a mod 10) (b mod 10));
      destruct (Z.compare_spec a b);
      try reflexivity; exfalso; lia.
Qed.

Lemma compare_fraction (us1 us2 : Z) :
  0 <= us1 < 10 ^ Z.of_nat 6 -> 0 <= us2 < 10 ^ Z.of_nat 6 ->
  String.compare
    (if us1 =? 0 then "" else "." ++ fixed_digits 6 us1 "")
    (if us2 =? 0 then "" else "." ++ fixed_digits 6 us2 "")
  = (us1 ?= us2).
Proof.
  intros H1 H2.
  destruct (Z.eqb_spec us1 0) as [E1 | N1], (Z.eqb_spec us2 0) as [E2 | N2].
  - subst. reflexivity.
  - cbn [append String.compare]. symmetry. apply Z.compare_lt_iff. lia.
  - cbn [append String.compare]. symmetry. apply Z.compare_gt_iff. lia.
  - cbn [append String.compare]. 
    change (Ascii.compare "." ".") with Eq. cbv iota.
    rewrite <- (append_empty_r (fixed_digits 6 us1 "")).
    rewrite <- (append_empty_r (fixed_digits 6 us2 "")).
    rewrite compare_fixed_digits by assumption.
    now destruct (us1 ?= us2).
Qed.

(** Comparing two timestamps as strings compares the instants: sorting
    the timestamps of responses sorts them by time, a whole second coming
    before the same second with a fraction. *)
Theorem timestamps_sort_chronologically (d1 d2 : datetime) :
  valid_datetime d1 = true -> valid_datetime d2 = true ->
  String.compare (isoformat d1) (isoformat d2) = datetime_compare d1 d2.
Proof.
  intros Hv1 Hv2.
  rewrite (isoformat_fixed d1 Hv1), (isoformat_fixed d2 Hv2).
  destruct (valid_datetime_ranges d1 Hv1) as (Hy1 & Hmo1 & Hd1 & Hh1 & Hmi1 & Hs1 & Hus1).
  destruct (valid_datetime_ranges d2 Hv2) as (Hy2 & Hmo2 & Hd2 & Hh2 & Hmi2 & Hs2 & Hus2).
  unfold datetime_compare. cbn [lexicographic].
  rewrite compare_fixed_digits by assumption.
  destruct (year d1 ?= year d2); try reflexivity.
  cbn [append String.compare]. change (Ascii.compare "-" "-") with Eq. cbv iota.
  rewrite compare_fixed_digits by assumption.
  destruct (month d1 ?= month d2); try reflexivity.
  cbn [append String.compare]. change (Ascii.compare "-" "-") with Eq. cbv iota.
  rewrite compare_fixed_digits by assumption.
  destruct (day d1 ?= day d2); try reflexivity.
  cbn [append String.compare]. change (Ascii.compare "T" "T") with Eq. cbv iota.
  rewrite compare_fixed_digits by assumption.
  destruct (hour d1 ?= hour d2); try reflexivity.
  cbn [append String.compare]. change (Ascii.compare ":" ":") with Eq. cbv iota.
  rewrite compare_fixed_digits by assumption.
  destruct (minute d1 ?= minute d2); try reflexivity.
  cbn [append String.compare]. change (Ascii.compare ":" ":") with Eq. cbv iota.
  rewrite compare_fixed_digits by assumption.
  destruct (second d1 ?= second d2); try reflexivity.
  rewrite compare_fraction by assumption.
  now destruct (microsecond d1 ?= microsecond d2).
Qed.

Lemma timestamps_sort_chronologically_witness :
  String.compare (isoformat (mk_datetime 2024 2 29 9 5 0 0))
                 (isoformat sample_instant) = Lt.
Proof.
  apply (timestamps_sort_chronologically
           (mk_datetime 2024 2 29 9 5 0 0) sample_instant); reflexivity.
Defined.

(** ** CORS origins *)

(** When [CORS_ORIGINS] is a list of comma-free origins joined with
    commas, the middleware allows exactly those origins, in that order
    and character for character: nothing is trimmed, merged or dropped
    (an empty field stays an allowed empty origin). *)
Theorem cors_allow_origins_of_join (settings : Settings)
    (origins : list string) :
  origins <> [] ->
  Forall (fun origin => str_count comma origin = O) origins ->
  CORS_ORIGINS settings = str_join comma origins ->
  cors_allow_origins settings = origins.
Proof.
  intros Hne Hclean Hcfg.
  unfold cors_allow_origins.
  cbn [app user_middleware map allow_origins concat].
  rewrite app_nil_r, Hcfg. now apply str_split_join.
Qed.

Lemma cors_allow_origins_of_join_witness :
  cors_allow_origins sample_settings
  = ["http://localhost:3000"; " http://localhost:8080"].
Proof.
  apply (cors_allow_origins_of_join sample_settings
           ["http://localhost:3000"; " http://localhost:8080"]).
  - discriminate.
  - repeat constructor.
  - reflexivity.
Defined.

(** ** The process entry *)

Lemma ascii_lower_not_upper (c : ascii) :
  is_ascii_char c = true -> is_upper (ascii_lower c) = false.
Proof.
  unfold ascii_lower, is_ascii_char. intros Hc.
  destruct (is_upper c) eqn:Hup; [| exact Hup].
  unfold is_upper in *.
  apply andb_true_iff in Hup. destruct Hup as [Hlo Hhi].
  apply N.leb_le in Hlo, Hhi.
  rewrite N_ascii_embedding by lia.
  apply andb_false_iff. right. apply N.leb_gt. lia.
Qed.

Lemma ascii_lower_fixpoint (c : ascii) :
  is_upper c = false -> ascii_lower c = c.
Proof. unfold ascii_lower. now intros ->. Qed.

Lemma str_lower_no_upper (s : string) :
  str_forallb is_ascii_char s = true ->
  str_forallb (fun c => negb (is_upper c)) (str_lower s) = true.
Proof.
  induction s as [| c s IH]; [reflexivity |].
  simpl. intros H. apply andb_true_iff in H. destruct H as [Hc Hs].
  rewrite (ascii_lower_not_upper c Hc). simpl. now apply IH.
Qed.

Lemma str_lower_fixpoint (s : string) :
  str_forallb (fun c => negb (is_upper c)) s = true -> str_lower s = s.
Proof.
  induction s as [| c s IH]; [reflexivity |].
  simpl. intros H. apply andb_true_iff in H. destruct H as [Hc Hs].
  apply negb_true_iff in Hc.
  now rewrite (ascii_lower_fixpoint c Hc), IH.
Qed.

Lemma str_lower_length (s : string) :
  String.length (str_lower s) = String.length s.
Proof. induction s as [| c s IH]; [reflexivity | simpl; now rewrite IH]. Qed.

(** The log level handed to uvicorn is [LOG_LEVEL] in lower case: for an
    ASCII setting it has no upper-case letter left, the same length, and
    lowering it again changes nothing, so two settings that differ only
    in the case of [LOG_LEVEL] start the server at the same level. *)
Theorem main_log_level_lowercase (settings settings' : Settings) :
  str_forallb is_ascii_char (LOG_LEVEL settings) = true ->
  LOG_LEVEL settings' = log_level (main settings) ->
  str_forallb (fun c => negb (is_upper c)) (log_level (main settings)) = true /\
  String.length (log_level (main settings)) = String.length (LOG_LEVEL settings) /\
  log_level (main settings') = log_level (main settings).
Proof.
  intros Hascii Hcfg. cbn [main log_level] in *.
  pose proof (str_lower_no_upper _ Hascii) as Hlow.
  split; [exact Hlow |]. split; [apply str_lower_length |].
  rewrite Hcfg. now apply str_lower_fixpoint.
Qed.

Lemma main_log_level_lowercase_witness :
  log_level (main {| API_TITLE := "t"; API_VERSION := "v";
                     API_DESCRIPTION := "d"; CORS_ORIGINS := "*";
                     LOG_LEVEL := "info" |})
  = log_level (main sample_settings).
Proof.
  apply (main_log_level_lowercase sample_settings
           {| API_TITLE := "t"; API_VERSION := "v"; API_DESCRIPTION := "d";
              CORS_ORIGINS := "*"; LOG_LEVEL := "info" |});
    reflexivity.
Defined.

(** ** Consistency of the responses *)

(** In the body of [GET /health], for a registry filled by
    registrations, the health map has exactly one entry per available
    model, under the same names and in the same order, and [total] counts
    them. *)
Theorem health_map_matches_available (settings : Settings)
    (policy : DuplicatePolicy) (registrations : list (Classifier * bool))
    (entries : list LogRecord) (trace : list RegistryCall) (t : datetime) :
  let w := {| registry := register_all policy registrations [];
              log := entries; calls := trace; utcnow := t |} in
  exists body models names hmap,
    fst (health settings w) = Return body /\
    json_get "models" body = Some models /\
    json_get "available" models = Some (JList (map JStr names)) /\
    json_get "health" models = Some hmap /\
    json_keys hmap = names /\
    NoDup names /\
    json_get "total" models = Some (JInt (Z.of_nat (length names))).
Proof.
  intros w. rewrite health_run. cbn [fst].
  destruct (register_all_ok policy registrations [] registry_ok_empty)
    as [Hnd _].
  exists (JObj [ ("status", JStr "healthy");
                 ("version", JStr (API_VERSION settings));
                 ("timestamp", JStr (isoformat (utcnow w)));
                 ("models",
                  JObj [ ("total", JInt (Z.of_nat (length (list_models (registry w)))));
                         ("available",
                          JList (map JStr (dict_keys (list_models (registry w)))));
                         ("health",
                          JObj (dict_map health_json
                                  (health_check_all (registry w)))) ]) ]).
  do 3 eexists.
  split; [reflexivity |]. split; [reflexivity |].
  split; [reflexivity |]. split; [reflexivity |].
  cbn [json_keys registry w].
  fold (dict_keys (dict_map health_json
          (health_check_all (register_all policy registrations [])))).
  rewrite health_check_all_entries by exact Hnd.
  unfold list_models. rewrite !dict_keys_map.
  split; [reflexivity |]. split; [exact Hnd |].
  cbn [json_get dict_get String.eqb Ascii.eqb Bool.eqb].
  unfold dict_keys, dict_map. now rewrite !length_map.
Qed.

(** The version is reported consistently: the FastAPI application, the
    body of [GET /] and the body of [GET /health] all carry
    [API_VERSION], in whatever state the two handlers run. *)
Theorem version_reported_consistently (settings : Settings) (w1 w2 : World) :
  exists root_body health_body,
    fst (root settings w1) = Return root_body /\
    fst (health settings w2) = Return health_body /\
    json_get "version" root_body = Some (JStr (app_version (app settings))) /\
    json_get "version" health_body = Some (JStr (app_version (app settings))) /\
    app_version (app settings) = API_VERSION settings.
Proof.
  do 2 eexists. repeat split.
Qed.

(** ** The application always answers *)

